(** * take-notes: the OTP authentication core of [server/index.ts]

    A shallow embedding of the authentication routes of the Express
    server (request-signup-otp, signup, request-otp, login), of
    [sendEmail] and of [authMiddleware], with the properties of the
    specification stated and proved (or refuted) over it.

    Modelling conventions.
    - The [User] collection is a finite map keyed by e-mail address: the
      schema declares [email] unique and every query of the
      authentication routes is [User.findOne({ email })].
    - A [Date] is its time value, an integer number of milliseconds.
    - A JavaScript number is an IEEE-754 binary64 value.  The only
      floating-point computation of the server is the OTP generator;
      module [Binary64] models the non-negative finite doubles it can
      meet, with round-to-nearest-even written out.
    - A handler is a function from the collection to an outcome, a new
      collection and the list of effects it performed (writes, mails,
      console lines, the HTTP response), in order.
    - [jsonwebtoken] is an external library: [jwt.sign] and [jwt.verify]
      are parameters of the development.
    - The database is taken to be reachable and requests are served one
      at a time; the only exceptions a [save()] raises are the schema
      validation error and the duplicate key error.
    - The [email] of a request body is a string; the other fields are as
      the routes read them ([otp] is any JSON value). *)

From Stdlib Require Import ZArith Lia String Ascii List Bool SpecFloat.
From stdpp Require Import base option gmap strings sorting.
Import ListNotations.

Local Open Scope string_scope.
Local Open Scope Z_scope.

(* ===================================================================== *)
(** ** Non-negative binary64 values *)
(* ===================================================================== *)

Module Binary64.

(** Every finite non-negative double is an integer multiple of
    [2^-1074]; a double is represented by that integer numerator. *)
Definition scale : Z := 1074.
Definition unit_one : Z := 2 ^ scale.

(** Number of low bits that do not fit in a 53-bit significand. *)
Definition dropped_bits (N : Z) : Z := Z.max 0 (Z.log2 N - 52).

Definition is_binary64 (N : Z) : bool :=
  (0 <=? N) && (N mod 2 ^ dropped_bits N =? 0).

(** Round to nearest, ties to even (overflow cannot occur at the
    magnitudes of this program and is not modelled). *)
Definition round_ne (N : Z) : Z :=
  let s := dropped_bits N in
  if s =? 0 then N
  else
    let q := N / 2 ^ s in
    let r := N mod 2 ^ s in
    let half := 2 ^ (s - 1) in
    let q' := if (half <? r) || ((r =? half) && Z.odd q) then q + 1 else q in
    q' * 2 ^ s.

(** [Number(k)] for a small non-negative integer literal [k]. *)
Definition of_int (k : Z) : Z := k * unit_one.

(** [a * b] where [b] is an integer-valued double. *)
Definition mul_int (a : Z) (k : Z) : Z := round_ne (a * k).

Definition add (a b : Z) : Z := round_ne (a + b).

(** [Math.floor] of a non-negative double, as an integer. *)
Definition floor (a : Z) : Z := a / unit_one.

(** A value [Math.random()] may return: a double in [[0, 1)]. *)
Definition unit_interval (N : Z) : bool := is_binary64 N && (N <? unit_one).

(** The spacing of the doubles just below 1 is [2^-53], that is
    [2^1021] in numerators; the bounds below are multiples of it. *)
Definition B : Z := 2 ^ 1021.

End Binary64.

(** [Math.floor(100000 + Math.random() * 900000)] *)
Definition otp_number (random : Z) : Z :=
  Binary64.floor (Binary64.add (Binary64.of_int 100000) (Binary64.mul_int random 900000)).

(** The same expression over the Standard Library's specification of
    IEEE-754 arithmetic ([prec = 53], [emax = 1024]), to test the
    numerator model against. *)
Definition of_spec (f : spec_float) : option Z :=
  match f with
  | S754_zero false => Some 0
  | S754_finite false m e => Some (Z.pos m * 2 ^ (e + 1074))
  | _ => None
  end.

Definition ieee_otp (r : spec_float) : spec_float :=
  SFadd 53 1024 (S754_finite false 100000 0)
    (SFmul 53 1024 r (S754_finite false 900000 0)).

Definition agrees_with_ieee (r : spec_float) : bool :=
  match of_spec r, of_spec (ieee_otp r) with
  | Some n, Some y =>
      Binary64.unit_interval n
      && (y =? Binary64.add (Binary64.of_int 100000) (Binary64.mul_int n 900000))
  | _, _ => false
  end.

(* ===================================================================== *)
(** ** [Number.prototype.toString] on non-negative integers *)
(* ===================================================================== *)

Definition digit_char (d : Z) : ascii := ascii_of_nat (48 + Z.to_nat d).

Fixpoint decimal_go (fuel : nat) (n : Z) (acc : string) : string :=
  match fuel with
  | O => acc
  | S fuel' =>
      let acc' := String (digit_char (n mod 10)) acc in
      if n / 10 =? 0 then acc' else decimal_go fuel' (n / 10) acc'
  end.

Definition Number_toString (n : Z) : string :=
  decimal_go (S (Z.to_nat (Z.log2 n))) n "".

(** [Math.floor(100000 + Math.random() * 900000).toString()] *)
Definition generate_otp (random : Z) : string := Number_toString (otp_number random).

(** The reading of a string of decimal digits, used to state what a
    generated code denotes. *)
Definition digit_value (a : ascii) : option Z :=
  let n := Z.of_nat (nat_of_ascii a) in
  if (48 <=? n) && (n <=? 57) then Some (n - 48) else None.

Fixpoint decimal_value_go (s : string) (acc : Z) : option Z :=
  match s with
  | EmptyString => Some acc
  | String a rest =>
      match digit_value a with
      | Some d => decimal_value_go rest (10 * acc + d)
      | None => None
      end
  end.

Definition decimal_value (s : string) : option Z :=
  match s with
  | EmptyString => None
  | _ => decimal_value_go s 0
  end.

Definition six_digits (c : Z) : string :=
  String (digit_char (c / 100000 mod 10))
  (String (digit_char (c / 10000 mod 10))
  (String (digit_char (c / 1000 mod 10))
  (String (digit_char (c / 100 mod 10))
  (String (digit_char (c / 10 mod 10))
  (String (digit_char (c mod 10)) ""))))).

(* ===================================================================== *)
(** ** Data model *)
(* ===================================================================== *)

(** A document of the [User] collection ([UserSchema]).  [name] and
    [email] are required paths, the others may be unset. *)
Record User := mkUser {
  _id : string;
  name : string;
  email : string;
  dateOfBirth : option string;
  otp : option string;
  otpExpires : option Z
}.

Abbreviation Users := (gmap string User).

(** A value of a JSON request body; [JsUndefined] is an absent field. *)
Inductive JsValue :=
| JsUndefined
| JsNull
| JsBool (b : bool)
| JsNumber (n : Z)
| JsString (s : string)
| JsObject.

(** The JSON bodies the authentication routes answer with. *)
Record Body := mkBody {
  success : option bool;
  message : string;
  token : option string;
  error : option string
}.

Record MailOptions := mkMail {
  mail_from : option string;
  mail_to : string;
  mail_subject : string;
  mail_text : string
}.

(** What a request does to the outside world, in program order. *)
Inductive Event :=
| Saved (u : User)
| SendMail (m : MailOptions)
| ConsoleLog (line : string)
| ConsoleError (line : string)
| Responded (status : Z) (body : Body).

(** [req.user], set by the guard from the decoded token. *)
Record ReqUser := mkReqUser { id : string }.

(** What the runtime hands to one request: the clock, the value of
    [Math.random()], the fate of [transporter.sendMail] and the
    [ObjectId] a new document receives. *)
Record Env := mkEnv {
  now : Z;
  random : Z;
  mail_ok : bool;
  new_id : string
}.

(** [process.env] as far as these routes read it. *)
Record Config := mkConfig {
  env_JWT_SECRET : option string;
  env_EMAIL_USER : option string
}.

(* ===================================================================== *)
(** ** Handlers as state-and-trace computations *)
(* ===================================================================== *)

Inductive Outcome (A : Type) :=
| Returned (a : A)
| Thrown (msg : string).
Arguments Returned {A} a.
Arguments Thrown {A} msg.

Definition Handler (A : Type) : Type := Users -> Outcome A * Users * list Event.

Definition ret {A} (a : A) : Handler A := fun db => (Returned a, db, []).

Definition bind {A B} (m : Handler A) (k : A -> Handler B) : Handler B :=
  fun db =>
    match m db with
    | (Returned a, db1, tr1) =>
        match k a db1 with
        | (o, db2, tr2) => (o, db2, (tr1 ++ tr2)%list)
        end
    | (Thrown msg, db1, tr1) => (Thrown msg, db1, tr1)
    end.

Notation "'let!' x ':=' m 'in' k" := (bind m (fun x => k))
  (at level 10, x name, m at level 100, k at level 200).
Notation "m ;; k" := (bind m (fun _ => k))
  (at level 100, k at level 200, right associativity).

Definition throw {A} (msg : string) : Handler A := fun db => (Thrown msg, db, []).

Definition emit (e : Event) : Handler unit := fun db => (Returned tt, db, [e]).

(** [try { body } catch (err) { handler(err.message) }] *)
Definition try_catch {A} (body : Handler A) (handler : string -> Handler A) : Handler A :=
  fun db =>
    match body db with
    | (Returned a, db1, tr1) => (Returned a, db1, tr1)
    | (Thrown msg, db1, tr1) =>
        match handler msg db1 with
        | (o, db2, tr2) => (o, db2, (tr1 ++ tr2)%list)
        end
    end.

Definition final_db {A} (r : Outcome A * Users * list Event) : Users := snd (fst r).
Definition events {A} (r : Outcome A * Users * list Event) : list Event := snd r.

(** The HTTP response of a run: the first [res.status(..).json(..)]. *)
Fixpoint response (tr : list Event) : option (Z * Body) :=
  match tr with
  | [] => None
  | Responded st b :: _ => Some (st, b)
  | _ :: rest => response rest
  end.

Definition status (tr : list Event) : option Z := fst <$> response tr.

(** *** JavaScript operators used by the routes *)

(** [!s] for a value that is a string or [undefined]. *)
Definition js_not (s : option string) : bool :=
  match s with
  | None => true
  | Some str => String.eqb str ""
  end.

(** [a || b] on strings. *)
Definition js_or (a : option string) (b : string) : string :=
  match a with
  | Some str => if String.eqb str "" then b else str
  | None => b
  end.

(** [a !== b] where [a] is a string or [undefined]. *)
Definition strict_neq (a : option string) (b : JsValue) : bool :=
  match a, b with
  | Some s, JsString t => negb (String.eqb s t)
  | None, JsUndefined => false
  | _, _ => true
  end.

(** [!d] for a value that is a [Date] or [undefined]: every [Date] is truthy. *)
Definition js_not_date (d : option Z) : bool :=
  match d with
  | None => true
  | Some _ => false
  end.

(** [new Date() > d]: the time values are compared; against [undefined] the
    comparison is false. *)
Definition date_gt (t : Z) (d : option Z) : bool :=
  match d with
  | Some e => e <? t
  | None => false
  end.

(** [str.split(' ')] *)
Fixpoint split_on (sep : ascii) (s : string) : list string :=
  match s with
  | EmptyString => [EmptyString]
  | String c rest =>
      if Ascii.eqb c sep then EmptyString :: split_on sep rest
      else match split_on sep rest with
           | hd :: tl => String c hd :: tl
           | [] => [String c EmptyString]
           end
  end.

(** *** Mongoose operations *)

(** [User.findOne({ email })] *)
Definition User_findOne (e : string) : Handler (option User) :=
  fun db => (Returned (db !! e), db, []).

(** The [required] validator of a [String] path rejects [undefined] and
    the empty string. *)
Definition required_ok (v : option string) : bool := negb (js_not v).

(** [new User({ name, email, dateOfBirth, otp, otpExpires }).save()] *)
Definition User_create (oid : string) (nm : option string) (em : string)
    (dob : option string) (code : string) (expires : Z) : Handler unit :=
  match nm with
  | Some n =>
      if required_ok (Some n) && required_ok (Some em) then
        fun db =>
          match db !! em with
          | Some _ => (Thrown "E11000 duplicate key error", db, [])
          | None =>
              let u := mkUser oid n em dob (Some code) (Some expires) in
              (Returned tt, <[em := u]> db, [Saved u])
          end
      else throw "User validation failed"
  | None => throw "User validation failed"
  end.

(** [user.save()] on a document loaded from the collection. *)
Definition User_save (u : User) : Handler unit :=
  fun db => (Returned tt, <[email u := u]> db, [Saved u]).

Definition respond (st : Z) (b : Body) : Handler unit := emit (Responded st b).

(** [{ message }] *)
Definition msg_body (m : string) : Body := mkBody None m None None.
(** [{ success: true, message }] *)
Definition ok_body (m : string) : Body := mkBody (Some true) m None None.
(** [{ success: true, message, token }] *)
Definition token_body (m t : string) : Body := mkBody (Some true) m (Some t) None.
(** [{ success: false, message: 'Server error.', error }] *)
Definition server_error (e : string) : Body :=
  mkBody (Some false) "Server error." None (Some e).

(** [jsonwebtoken], as the server uses it: [jwt.sign({ user: { id } },
    secret, { expiresIn: '1h' })] and [jwt.verify(token, secret)], which
    returns the decoded [user] or throws. *)
Class JsonWebToken := {
  jwt_sign : string -> string -> Z -> string;
  jwt_verify : string -> string -> Z -> Outcome (option ReqUser)
}.

(** The two routes that issue a challenge and the two that complete one. *)
Inductive ChallengeRequest :=
| SignupChallenge (nm dob : option string) (em : string)
| LoginChallenge (em : string).

Inductive Completion := Signup | Login.

Definition challenge_email (rq : ChallengeRequest) : string :=
  match rq with
  | SignupChallenge _ _ em => em
  | LoginChallenge em => em
  end.

(** A request to one of the four authentication routes, with the
    environment it is served in. *)
Inductive Request :=
| Challenge (env : Env) (rq : ChallengeRequest)
| Complete (k : Completion) (env : Env) (em : string) (code : JsValue).

(** Does the request ask for a login challenge for this address? *)
Definition reissues (em : string) (r : Request) : bool :=
  match r with
  | Challenge _ (LoginChallenge em') => String.eqb em' em
  | _ => false
  end.

(** Is the request a completion attempt for this address? *)
Definition completion_for (em : string) (r : Request) : bool :=
  match r with
  | Complete _ _ em' _ => String.eqb em' em
  | _ => false
  end.

Section Server.
Context {jwt : JsonWebToken} (cfg : Config).

Definition JWT_SECRET : string := js_or (env_JWT_SECRET cfg) "your_jwt_secret".

(** [transporter.sendMail(mailOptions)]: the message is handed to the
    transport, which delivers it or fails. *)
Definition transporter_sendMail (env : Env) (m : MailOptions) : Handler unit :=
  emit (SendMail m) ;;
  if mail_ok env then ret tt else throw "sendMail failed".

Definition sendEmail (env : Env) (to subject text : string) : Handler unit :=
  try_catch
    (let mailOptions := mkMail (env_EMAIL_USER cfg) to subject text in
     transporter_sendMail env mailOptions ;;
     emit (ConsoleLog (String.append "Email sent to " to)))
    (fun _ =>
       emit (ConsoleError (String.append "Error sending email to " (String.append to ":")))).

(** [req.header('Authorization')?.split(' ')[1]] *)
Definition header_token (header : option string) : option string :=
  match header with
  | None => None
  | Some h => nth_error (split_on " " h) 1
  end.

Definition authMiddleware (env : Env) (header : option string)
    (next : option ReqUser -> Handler unit) : Handler unit :=
  match header_token header with
  | None | Some EmptyString =>
      (* [!token]: [undefined] or the empty string *)
      respond 401 (msg_body "No token, authorization denied.")
  | Some tok =>
      match jwt_verify tok JWT_SECRET (now env) with
      | Returned decoded_user => next decoded_user
      | Thrown msg => respond 401 (mkBody None "Token is not valid." None (Some msg))
      end
  end.

(** [app.post('/api/auth/request-signup-otp', ...)] *)
Definition request_signup_otp (env : Env) (nm dob : option string) (em : string)
    : Handler unit :=
  try_catch
    (let! existingUser := User_findOne em in
     match existingUser with
     | Some _ => respond 400 (msg_body "User with this email already exists.")
     | None =>
         let code := generate_otp (random env) in
         let expires := now env + 10 * 60 * 1000 in
         User_create (new_id env) nm em dob code expires ;;
         sendEmail env em "Your Sign-up OTP"
           (String.append "Your OTP for notes-app sign up is: " code) ;;
         respond 200 (ok_body "OTP sent successfully.")
     end)
    (fun msg => respond 500 (server_error msg)).

(** The test both completion routes apply:
    [!user.otp || user.otp !== otp || !user.otpExpires || new Date() > user.otpExpires] *)
Definition otp_rejected (user : User) (code : JsValue) (t : Z) : bool :=
  js_not (otp user) || strict_neq (otp user) code
  || js_not_date (otpExpires user) || date_gt t (otpExpires user).

(** [user.otp = undefined; user.otpExpires = undefined;] *)
Definition clear_challenge (u : User) : User :=
  mkUser (_id u) (name u) (email u) (dateOfBirth u) None None.

(** [app.post('/api/auth/signup', ...)] *)
Definition signup (env : Env) (em : string) (code : JsValue) : Handler unit :=
  try_catch
    (let! found := User_findOne em in
     match found with
     | None => respond 400 (msg_body "Invalid email.")
     | Some user =>
         if otp_rejected user code (now env)
         then respond 400 (msg_body "Invalid or expired OTP.")
         else
           let user := clear_challenge user in
           User_save user ;;
           let tok := jwt_sign (_id user) JWT_SECRET (now env) in
           respond 200 (token_body "Signup successful." tok)
     end)
    (fun msg => respond 500 (server_error msg)).

(** [user.otp = otp; user.otpExpires = otpExpires;] *)
Definition set_challenge (u : User) (code : string) (expires : Z) : User :=
  mkUser (_id u) (name u) (email u) (dateOfBirth u) (Some code) (Some expires).

(** [app.post('/api/auth/request-otp', ...)] *)
Definition request_otp (env : Env) (em : string) : Handler unit :=
  try_catch
    (let! found := User_findOne em in
     match found with
     | None => respond 404 (msg_body "User not found. Please sign up first.")
     | Some user =>
         let code := generate_otp (random env) in
         let expires := now env + 10 * 60 * 1000 in
         User_save (set_challenge user code expires) ;;
         sendEmail env em "Your Login OTP"
           (String.append "Your OTP for notes-app login is: " code) ;;
         respond 200 (ok_body "OTP sent successfully.")
     end)
    (fun msg => respond 500 (server_error msg)).

(** [app.post('/api/auth/login', ...)] *)
Definition login (env : Env) (em : string) (code : JsValue) : Handler unit :=
  try_catch
    (let! found := User_findOne em in
     match found with
     | None => respond 400 (msg_body "Invalid credentials.")
     | Some user =>
         if otp_rejected user code (now env)
         then respond 400 (msg_body "Invalid or expired OTP.")
         else
           let user := clear_challenge user in
           User_save user ;;
           let tok := jwt_sign (_id user) JWT_SECRET (now env) in
           respond 200 (token_body "Login successful." tok)
     end)
    (fun msg => respond 500 (server_error msg)).

Definition request_challenge (env : Env) (rq : ChallengeRequest) : Handler unit :=
  match rq with
  | SignupChallenge nm dob em => request_signup_otp env nm dob em
  | LoginChallenge em => request_otp env em
  end.

Definition complete (k : Completion) : Env -> string -> JsValue -> Handler unit :=
  match k with
  | Signup => signup
  | Login => login
  end.

Definition success_message (k : Completion) : string :=
  match k with
  | Signup => "Signup successful."
  | Login => "Login successful."
  end.

Definition unknown_email_message (k : Completion) : string :=
  match k with
  | Signup => "Invalid email."
  | Login => "Invalid credentials."
  end.

Definition route (r : Request) : Handler unit :=
  match r with
  | Challenge env rq => request_challenge env rq
  | Complete k env em code => complete k env em code
  end.

(** Requests served one after the other; the result is the final
    collection and the response to each. *)
Fixpoint serve (l : list Request) (db : Users) : Users * list (option (Z * Body)) :=
  match l with
  | [] => (db, [])
  | r :: rest =>
      let out := route r db in
      let '(db', rs) := serve rest (final_db out) in
      (db', response (events out) :: rs)
  end.

End Server.

(* ===================================================================== *)
(** ** Vocabulary of the properties *)
(* ===================================================================== *)

(** A grid point of binary64: [m * 2^t] with a significand of at most 53 bits. *)
Definition on_grid (G : Z) : Prop :=
  exists m t, 0 <= t /\ 0 <= m < 2 ^ 53 /\ G = m * 2 ^ t.

(** The challenge an account holds, as the completion routes see it: a
    non-empty stored code together with a stored expiry. *)
Definition pending_challenge (u : User) : option (string * Z) :=
  match otp u, otpExpires u with
  | Some c, Some e => if String.eqb c "" then None else Some (c, e)
  | _, _ => None
  end.

(** Acceptance as the specification words it: a pending challenge, the
    same string, and the clock strictly before the expiry. *)
Definition spec_accepts_strict (u : User) (code : JsValue) (t : Z) : Prop :=
  exists c e, pending_challenge u = Some (c, e) /\ code = JsString c /\ t < e.

(** Acceptance as the routes decide it: the expiry instant itself is still in time. *)
Definition accepts (u : User) (code : JsValue) (t : Z) : Prop :=
  exists c e, pending_challenge u = Some (c, e) /\ code = JsString c /\ t <= e.

(** The line [sendEmail] writes to the console. *)
Definition mail_line (env : Env) (to : string) : Event :=
  if mail_ok env
  then ConsoleLog (String.append "Email sent to " to)
  else ConsoleError (String.append "Error sending email to " (String.append to ":")).

(** What a challenge route writes when it issues: the document and the mail. *)
Definition issued_user (env : Env) (rq : ChallengeRequest) (db : Users) : option User :=
  let code := generate_otp (random env) in
  let expires := now env + 10 * 60 * 1000 in
  match rq with
  | SignupChallenge nm dob em =>
      match db !! em, nm with
      | None, Some n =>
          if required_ok nm && required_ok (Some em)
          then Some (mkUser (new_id env) n em dob (Some code) (Some expires))
          else None
      | _, _ => None
      end
  | LoginChallenge em =>
      match db !! em with
      | Some u => Some (mkUser (_id u) (name u) (email u) (dateOfBirth u) (Some code) (Some expires))
      | None => None
      end
  end.

Definition challenge_mail (cfg : Config) (env : Env) (rq : ChallengeRequest) : MailOptions :=
  let code := generate_otp (random env) in
  match rq with
  | SignupChallenge _ _ em =>
      mkMail (env_EMAIL_USER cfg) em "Your Sign-up OTP"
        (String.append "Your OTP for notes-app sign up is: " code)
  | LoginChallenge em =>
      mkMail (env_EMAIL_USER cfg) em "Your Login OTP"
        (String.append "Your OTP for notes-app login is: " code)
  end.

(** A header segment: a string without a space. *)
Fixpoint no_space (s : string) : bool :=
  match s with
  | EmptyString => true
  | String c rest => negb (Ascii.eqb c " ") && no_space rest
  end.

(** The collection holds its documents under their own address. *)
Definition keyed_by_email (db : Users) : Prop :=
  forall e u, db !! e = Some u -> email u = e.

(* ===================================================================== *)
(** ** Concrete runs *)
(* ===================================================================== *)

Module Demo.

(** A toy token library: the token is the account id behind a fixed tag. *)
#[export] Instance jwt : JsonWebToken := {|
  jwt_sign := fun uid _ _ => String.append "tok." uid;
  jwt_verify := fun tok _ _ =>
    match tok with
    | String "t" (String "o" (String "k" (String "." uid))) =>
        Returned (Some (mkReqUser uid))
    | _ => Thrown "jwt malformed"
    end
|}.

Definition cfg : Config := mkConfig None (Some "notes@example.com").

(** [Math.random()] returning 0.5 and 0.25. *)
Definition half : Z := 2 ^ 1073.
Definition quarter : Z := 2 ^ 1072.

Definition env0 : Env := mkEnv 0 half true "65f0".
Definition env0_mail_down : Env := mkEnv 0 half false "65f0".
Definition env1 : Env := mkEnv 1000 quarter true "65f1".
Definition env_at_expiry : Env := mkEnv 600000 quarter true "65f2".
Definition env_late : Env := mkEnv 600001 quarter true "65f3".

(** A later login challenge that draws 0.5 again, and a submission after it. *)
Definition env2 : Env := mkEnv 2000 half true "65f4".
Definition env3 : Env := mkEnv 3000 quarter true "65f5".

Definition alice : User :=
  mkUser "65f0" "Alice" "a@x.com" None (Some "550000") (Some 600000).

Definition db_alice : Users := {[ "a@x.com" := alice ]}.

Definition signup_alice : ChallengeRequest :=
  SignupChallenge (Some "Alice") None "a@x.com".

(** A stand-in for a protected route: it answers with the caller's id. *)
Definition whoami (u : option ReqUser) : Handler unit :=
  respond 200 (msg_body (match u with Some r => id r | None => "" end)).

End Demo.

(* ===================================================================== *)
(** ** The protected routes *)
(* ===================================================================== *)

(** [GET /api/auth/me] and the three notes routes, each behind
    [authMiddleware].  The [Note] collection is a finite map from [_id]
    to document; a route body returns its reply or throws, and the
    [catch] of the route turns what is thrown into the 500 reply.  The
    [title] and [content] of a request body are strings or absent.
    An [ObjectId] ([_id] of an account or a note, [user] of a note) is
    kept as its [toHexString()]; the ids of a request arrive as strings
    and Mongoose casts them to [ObjectId] before it compares or stores
    them.  Mongo keeps [_id] unique; where a property needs this of the
    accounts it is a hypothesis ([unique_ids]). *)

(** The address a request to an authentication route is about. *)
Definition request_email (r : Request) : string :=
  match r with
  | Challenge _ rq => challenge_email rq
  | Complete _ _ em _ => em
  end.

(** [Date.now()] and the rest of the environment apart, a different draw
    of [Math.random()]. *)
Definition with_random (env : Env) (r : Z) : Env :=
  mkEnv (now env) r (mail_ok env) (new_id env).

(** The [token] field of a response, if the response has one. *)
Definition response_token (tr : list Event) : option string :=
  match response tr with
  | Some (_, b) => token b
  | None => None
  end.

(** The events of a trace that are responses. *)
Fixpoint responses (tr : list Event) : list (Z * Body) :=
  match tr with
  | [] => []
  | Responded st b :: rest => (st, b) :: responses rest
  | _ :: rest => responses rest
  end.

(** An event with the [message] of a response left out. *)
Definition without_message (e : Event) : Event :=
  match e with
  | Responded st b => Responded st (mkBody (success b) "" (token b) (error b))
  | _ => e
  end.

(** The identity of an account: what no route ever changes. *)
Definition identity (u : User) : string * string * string * option string :=
  (_id u, name u, email u, dateOfBirth u).

(** The two challenge fields are set together or unset together. *)
Definition challenge_paired (db : Users) : Prop :=
  forall e u, db !! e = Some u -> (otp u = None <-> otpExpires u = None).

(** A document of the [Note] collection ([NoteSchema]), without its
    [_id]: the collection is a finite map from [_id] to document. *)
Record Note := mkNote {
  title : string;
  content : string;
  user : string;
  createdAt : Z
}.

Abbreviation Notes := (gmap string Note).

(** The two collections. *)
Record World := mkWorld {
  users : Users;
  notes : Notes
}.

(** What [res.json] is given by the protected routes. *)
Inductive Payload :=
| Message (b : Body)
| UserDoc (u : User)
| NoteDoc (nid : string) (n : Note)
| NoteList (l : list (string * Note)).

Record Reply := mkReply {
  reply_status : Z;
  reply_payload : Payload
}.

(** A route body: it returns or throws, and may change the collections. *)
Definition Route (A : Type) : Type := World -> Outcome A * World.

Definition route_ret {A} (a : A) : Route A := fun w => (Returned a, w).

Definition route_bind {A B} (m : Route A) (k : A -> Route B) : Route B :=
  fun w =>
    match m w with
    | (Returned a, w1) => k a w1
    | (Thrown msg, w1) => (Thrown msg, w1)
    end.

Notation "'let*' x ':=' m 'in' k" := (route_bind m (fun x => k))
  (at level 10, x name, m at level 100, k at level 200).

Definition route_throw {A} (msg : string) : Route A := fun w => (Thrown msg, w).

(** [try { body } catch (err) { res.status(500).json(...) }] *)
Definition catching (body : Route Reply) (on_error : string -> Reply)
    : World -> Reply * World :=
  fun w =>
    match body w with
    | (Returned r, w1) => (r, w1)
    | (Thrown msg, w1) => (on_error msg, w1)
    end.

Definition reply_message (st : Z) (m : string) : Reply := mkReply st (Message (msg_body m)).

(** [res.status(500).json({ message: 'Server error.', error: message })] *)
Definition reply_server_error (e : string) : Reply :=
  mkReply 500 (Message (mkBody None "Server error." None (Some e))).

(** [.select('-otp -otpExpires')] *)
Definition select_identity (u : User) : User :=
  mkUser (_id u) (name u) (email u) (dateOfBirth u) None None.

(** [.sort({ createdAt: -1 })]: newest first. *)
Definition newer_first (a b : string * Note) : Prop :=
  createdAt (snd b) <= createdAt (snd a).

#[global] Instance newer_first_dec : RelDecision newer_first :=
  fun a b => decide (createdAt (snd b) <= createdAt (snd a)).

(** [!req.user || !req.user.id] *)
Definition no_user_id (u : option ReqUser) : bool :=
  match u with
  | None => true
  | Some r => String.eqb (id r) ""
  end.

(** The decision of [authMiddleware], apart from what it passes control to. *)
Inductive Guard :=
| Pass (req_user : option ReqUser)
| Deny (st : Z) (b : Body).

(** No two accounts share an [_id]. *)
Definition unique_ids (db : Users) : Prop :=
  forall e1 e2 u1 u2,
    db !! e1 = Some u1 -> db !! e2 = Some u2 -> _id u1 = _id u2 -> e1 = e2.

(** A request to a notes route, as the guard hands it over. *)
Inductive NoteRequest :=
| CreateNote (env : Env) (ttl cnt : option string)
| ListNotes
| DeleteNote (nid : string).

(** A 24-digit hexadecimal string, the usual text of an [ObjectId]. *)
Definition is_hex_digit (a : ascii) : bool :=
  let n := nat_of_ascii a in
  ((48 <=? n) && (n <=? 57) || (97 <=? n) && (n <=? 102) || (65 <=? n) && (n <=? 70))%nat.

Fixpoint all_hex (s : string) : bool :=
  match s with
  | EmptyString => true
  | String a rest => is_hex_digit a && all_hex rest
  end.

Definition is_hex24 (s : string) : bool :=
  (String.length s =? 24)%nat && all_hex s.

(** [toHexString()] writes the digits [a] to [f] in lower case. *)
Definition lower_hex (a : ascii) : ascii :=
  let n := nat_of_ascii a in
  if ((65 <=? n) && (n <=? 70))%nat then ascii_of_nat (n + 32) else a.

Fixpoint lower_hex_string (s : string) : string :=
  match s with
  | EmptyString => EmptyString
  | String a rest => String (lower_hex a) (lower_hex_string rest)
  end.

(** The cast of a 24-digit hexadecimal string, in either case of the
    letters; any other string is refused. *)
Definition hex24_cast (s : string) : option string :=
  if is_hex24 s then Some (lower_hex_string s) else None.

Section Protected.
Context {jwt : JsonWebToken} (cfg : Config).

(** The cast of a string to an [ObjectId], which Mongoose applies to the
    ids of a query and of a new document: the [ObjectId] as its
    [toHexString()], or nothing when the cast throws.  Two spellings of
    one id are cast to the same [ObjectId].  The rule belongs to the
    library and is left open. *)
Context (cast_id : string -> option string).

Definition guard (env : Env) (header : option string) : Guard :=
  match header_token header with
  | None | Some EmptyString => Deny 401 (msg_body "No token, authorization denied.")
  | Some tok =>
      match jwt_verify tok (JWT_SECRET cfg) (now env) with
      | Returned decoded_user => Pass decoded_user
      | Thrown msg => Deny 401 (mkBody None "Token is not valid." None (Some msg))
      end
  end.

(** [app.METHOD(path, authMiddleware, handler)] *)
Definition protected (env : Env) (header : option string)
    (handler : option ReqUser -> World -> Reply * World) : World -> Reply * World :=
  match guard env header with
  | Pass req_user => handler req_user
  | Deny st b => fun w => (mkReply st (Message b), w)
  end.

(** [User.findById(id)] *)
Definition User_findById (uid : string) : Route (option User) :=
  fun w =>
    match cast_id uid with
    | Some oid =>
        (Returned ((snd ∘ snd) <$> list_find (fun p => _id (snd p) = oid)
                     (map_to_list (users w))), w)
    | None => (Thrown "Cast to ObjectId failed", w)
    end.

(** [new Note({ title, content, user }).save()]; [createdAt] defaults to
    [Date.now]. *)
Definition Note_create (env : Env) (ttl cnt : option string) (uid : string)
    : Route (string * Note) :=
  match ttl, cnt, cast_id uid with
  | Some tl, Some ct, Some owner =>
      if required_ok ttl && required_ok cnt then
        fun w =>
          match notes w !! new_id env with
          | Some _ => (Thrown "E11000 duplicate key error", w)
          | None =>
              let n := mkNote tl ct owner (now env) in
              (Returned (new_id env, n),
               mkWorld (users w) (<[new_id env := n]> (notes w)))
          end
      else route_throw "Note validation failed"
  | _, _, _ => route_throw "Note validation failed"
  end.

(** [Note.find({ user }).sort({ createdAt: -1 })] *)
Definition Note_find_sorted (uid : string) : Route (list (string * Note)) :=
  fun w =>
    match cast_id uid with
    | Some owner =>
        (Returned (merge_sort newer_first
                     (filter (fun p => user (snd p) = owner) (map_to_list (notes w)))), w)
    | None => (Thrown "Cast to ObjectId failed", w)
    end.

(** [Note.findOneAndDelete({ _id, user })] *)
Definition Note_findOneAndDelete (nid uid : string) : Route (option (string * Note)) :=
  fun w =>
    match cast_id nid, cast_id uid with
    | Some key, Some owner =>
        match notes w !! key with
        | Some n =>
            if String.eqb (user n) owner
            then (Returned (Some (key, n)), mkWorld (users w) (delete key (notes w)))
            else (Returned None, w)
        | None => (Returned None, w)
        end
    | _, _ => (Thrown "Cast to ObjectId failed", w)
    end.

(** The handler of [app.get('/api/auth/me', authMiddleware, ...)] *)
Definition me_handler (req_user : option ReqUser) : World -> Reply * World :=
  catching
    (match req_user with
     | None => route_ret (reply_message 401 "User ID not found in token.")
     | Some r =>
         if String.eqb (id r) ""
         then route_ret (reply_message 401 "User ID not found in token.")
         else
           let* found := User_findById (id r) in
           match found with
           | None => route_ret (reply_message 404 "User not found.")
           | Some u => route_ret (mkReply 200 (UserDoc (select_identity u)))
           end
     end)
    reply_server_error.

(** The handler of [app.post('/api/notes/create', authMiddleware, ...)] *)
Definition create_handler (env : Env) (ttl cnt : option string)
    (req_user : option ReqUser) : World -> Reply * World :=
  catching
    (match req_user with
     | None => route_ret (reply_message 401 "User ID not found in token.")
     | Some r =>
         if String.eqb (id r) ""
         then route_ret (reply_message 401 "User ID not found in token.")
         else
           let* note := Note_create env ttl cnt (id r) in
           route_ret (mkReply 201 (NoteDoc (fst note) (snd note)))
     end)
    reply_server_error.

(** The handler of [app.get('/api/notes/all', authMiddleware, ...)] *)
Definition all_handler (req_user : option ReqUser) : World -> Reply * World :=
  catching
    (match req_user with
     | None => route_ret (reply_message 401 "User ID not found in token.")
     | Some r =>
         if String.eqb (id r) ""
         then route_ret (reply_message 401 "User ID not found in token.")
         else
           let* found := Note_find_sorted (id r) in
           route_ret (mkReply 200 (NoteList found))
     end)
    reply_server_error.

(** The handler of [app.delete('/api/notes/delete/:id', authMiddleware, ...)] *)
Definition delete_handler (nid : string) (req_user : option ReqUser)
    : World -> Reply * World :=
  catching
    (match req_user with
     | None => route_ret (reply_message 401 "User ID not found in token.")
     | Some r =>
         if String.eqb (id r) ""
         then route_ret (reply_message 401 "User ID not found in token.")
         else
           let* note := Note_findOneAndDelete nid (id r) in
           match note with
           | None => route_ret (reply_message 404 "Note not found or you are not the owner.")
           | Some _ => route_ret (reply_message 200 "Note deleted successfully.")
           end
     end)
    reply_server_error.

(** The four protected routes behind the guard. *)
Definition auth_me (env : Env) (header : option string) : World -> Reply * World :=
  protected env header me_handler.

Definition notes_create (env : Env) (header : option string) (ttl cnt : option string)
    : World -> Reply * World :=
  protected env header (create_handler env ttl cnt).

Definition notes_all (env : Env) (header : option string) : World -> Reply * World :=
  protected env header all_handler.

Definition notes_delete (env : Env) (header : option string) (nid : string)
    : World -> Reply * World :=
  protected env header (delete_handler nid).

(** A notes request made under a decoded user id. *)
Definition note_handler (rq : NoteRequest) (req_user : option ReqUser)
    : World -> Reply * World :=
  match rq with
  | CreateNote env ttl cnt => create_handler env ttl cnt req_user
  | ListNotes => all_handler req_user
  | DeleteNote nid => delete_handler nid req_user
  end.

(** Notes requests served one after the other, each under its own user. *)
Fixpoint serve_notes (l : list (option ReqUser * NoteRequest)) (w : World) : World :=
  match l with
  | [] => w
  | (ru, rq) :: rest => serve_notes rest (snd (note_handler rq ru w))
  end.

(** The account a decoded user stands for in a query: the [ObjectId]
    its id is cast to. *)
Definition owner_id (req_user : option ReqUser) : option string :=
  match req_user with
  | None => None
  | Some r => cast_id (id r)
  end.

(** The notes an account owns. *)
Definition notes_of (owner : string) (ns : Notes) : Notes :=
  filter (fun p => user (snd p) = owner) ns.

End Protected.

Module DemoNotes.

Definition cast_id : string -> option string := hex24_cast.

Definition alice_id : string := "65f0a1b2c3d4e5f601234567".
Definition bob_id : string := "65f0a1b2c3d4e5f60123abcd".

(** Alice's id and the id of her first note, spelled in upper case. *)
Definition alice_id_upper : string := "65F0A1B2C3D4E5F601234567".
Definition nid1_upper : string := "AAAAAAAAAAAAAAAAAAAAAAA1".

Definition alice : User :=
  mkUser alice_id "Alice" "a@x.com" (Some "11 December 1997") (Some "550000") (Some 600000).
Definition bob : User := mkUser bob_id "Bob" "b@x.com" None None None.

Definition db : Users := {[ "a@x.com" := alice; "b@x.com" := bob ]}.

Definition n1 : Note := mkNote "Groceries" "milk" alice_id 100.
Definition n2 : Note := mkNote "Ideas" "verify it" alice_id 300.
Definition n3 : Note := mkNote "Bob's" "private" bob_id 200.

Definition nid1 : string := "aaaaaaaaaaaaaaaaaaaaaaa1".
Definition nid2 : string := "aaaaaaaaaaaaaaaaaaaaaaa2".
Definition nid3 : string := "aaaaaaaaaaaaaaaaaaaaaaa3".
Definition nid4 : string := "aaaaaaaaaaaaaaaaaaaaaaa4".

Definition some_notes : Notes := {[ nid1 := n1; nid2 := n2; nid3 := n3 ]}.

Definition world : World := mkWorld db some_notes.

Definition env : Env := mkEnv 1000 Demo.quarter true nid4.

Definition as_alice : option string := Some (String.append "Bearer tok." alice_id).
Definition as_bob : option string := Some (String.append "Bearer tok." bob_id).
Definition as_alice_upper : option string :=
  Some (String.append "Bearer tok." alice_id_upper).

End DemoNotes.

(* ===================================================================== *)
(** ** Facts about rounding and the code generator *)
(* ===================================================================== *)

Example otp_number_half : otp_number Demo.half = 550000.
Proof. vm_compute. reflexivity. Qed.

Example generate_otp_half : generate_otp Demo.half = "550000".
Proof. vm_compute. reflexivity. Qed.

Example generate_otp_quarter : generate_otp Demo.quarter = "325000".
Proof. vm_compute. reflexivity. Qed.

Example generate_otp_zero : generate_otp 0 = "100000".
Proof. vm_compute. reflexivity. Qed.

(** The largest double below 1, [1 - 2^-53], gives the largest code. *)
Example generate_otp_max : generate_otp (2 ^ 1074 - 2 ^ 1021) = "999999".
Proof. vm_compute. reflexivity. Qed.

(** The numerator model computes what the IEEE-754 specification of the
    Standard Library computes, at 0, 1/2, the largest double below 1,
    the smallest subnormal and a few doubles of full precision. *)
Example model_agrees_with_ieee :
  forallb agrees_with_ieee
    [ S754_zero false;
      S754_finite false (2 ^ 52) (-53);
      S754_finite false (2 ^ 53 - 1) (-53);
      S754_finite false 1 (-1074);
      S754_finite false 6004799503160661 (-53);
      S754_finite false 6004799503160661 (-60);
      S754_finite false 7804799503160663 (-73);
      S754_finite false 5004799503160667 (-54);
      S754_finite false 9004799503160669 (-55);
      S754_finite false 4804799503160661 (-1074) ] = true.
Proof. vm_compute. reflexivity. Qed.

(** A tie is broken towards the even significand. *)
Example round_ne_tie_even :
  Binary64.round_ne (2 ^ 53 + 1) = 2 ^ 53 /\ Binary64.round_ne (2 ^ 53 + 3) = 2 ^ 53 + 4.
Proof. split; vm_compute; reflexivity. Qed.

Ltac div_lia := Z.to_euclidean_division_equations; lia.

Module Binary64Facts.
Import Binary64.

(** The shape of a number that loses bits: its quotient by the
    dropped power of two is a full 53-bit significand. *)
Lemma dropped_bits_pos N :
  dropped_bits N <> 0 ->
  let s := dropped_bits N in
  0 < s /\ 0 < 2 ^ s /\ 2 ^ s = 2 * 2 ^ (s - 1) /\ 0 < 2 ^ (s - 1) /\
  2 ^ 52 * 2 ^ s <= N < 2 ^ 53 * 2 ^ s.
Proof.
  intros Hs s. subst s. unfold dropped_bits in *.
  assert (Hl : 53 <= Z.log2 N) by lia.
  assert (HN : 0 < N).
  { destruct (Z_lt_le_dec 0 N) as [|Hle]; [assumption|].
    rewrite (Z.log2_nonpos N Hle) in Hl. lia. }
  rewrite Z.max_r by lia.
  destruct (Z.log2_spec N HN) as [Hlo Hhi].
  replace (Z.succ (Z.log2 N)) with (53 + (Z.log2 N - 52)) in Hhi by lia.
  replace (Z.log2 N) with (52 + (Z.log2 N - 52)) in Hlo at 1 by lia.
  rewrite Z.pow_add_r in Hlo, Hhi by lia.
  assert (Hp1 : 0 < 2 ^ (Z.log2 N - 52 - 1)) by (apply Z.pow_pos_nonneg; lia).
  assert (Hdbl : 2 ^ (Z.log2 N - 52) = 2 * 2 ^ (Z.log2 N - 52 - 1)).
  { replace (Z.log2 N - 52) with (1 + (Z.log2 N - 52 - 1)) at 1 by lia.
    rewrite Z.pow_add_r by lia. reflexivity. }
  lia.
Qed.

(** Rounding moves to one of the two neighbours on the grid of
    spacing [2^s], and stays put on a grid point. *)
Lemma round_ne_cases N :
  dropped_bits N <> 0 ->
  let P := 2 ^ dropped_bits N in
  (N mod P = 0 /\ round_ne N = N) \/
  (0 < N mod P /\ (round_ne N = N / P * P \/ round_ne N = (N / P + 1) * P)).
Proof.
  intros Hs P. destruct (dropped_bits_pos N Hs) as (Hpos & HP & Hh & Hhp & _).
  fold P in HP, Hh. unfold round_ne. fold P.
  destruct (Z.eqb_spec (dropped_bits N) 0) as [|_]; [contradiction|].
  pose proof (Z.mod_pos_bound N P HP) as Hr.
  pose proof (Z.div_mod N P ltac:(lia)) as Hdm.
  destruct (Z.eq_dec (N mod P) 0) as [H0|H0].
  - left. split; [assumption|]. rewrite H0.
    destruct (Z.ltb_spec (2 ^ (dropped_bits N - 1)) 0); [lia|].
    destruct (Z.eqb_spec 0 (2 ^ (dropped_bits N - 1))); [lia|].
    cbn [orb andb]. lia.
  - right. split; [lia|].
    destruct (_ || _); [right | left]; reflexivity.
Qed.

Lemma grid_multiple N m t :
  dropped_bits N <> 0 -> 0 <= t -> 0 <= m < 2 ^ 53 ->
  2 ^ 52 * 2 ^ dropped_bits N <= m * 2 ^ t ->
  exists k, m * 2 ^ t = k * 2 ^ dropped_bits N.
Proof.
  intros Hs Ht Hm Hle.
  destruct (dropped_bits_pos N Hs) as (Hpos & HP & Hh & Hhp & _).
  set (s := dropped_bits N) in *.
  assert (H2t : 0 < 2 ^ t) by (apply Z.pow_pos_nonneg; lia).
  assert (Hst : s <= t).
  { destruct (Z_le_gt_dec s t) as [|Hgt]; [assumption|exfalso].
    assert (2 ^ t <= 2 ^ (s - 1)) by (apply Z.pow_le_mono_r; lia).
    nia. }
  exists (m * 2 ^ (t - s)).
  replace t with ((t - s) + s) at 1 by lia.
  rewrite Z.pow_add_r by lia. ring.
Qed.

Lemma round_ne_le_grid N G : 0 <= N <= G -> on_grid G -> round_ne N <= G.
Proof.
  intros HN (m & t & Ht & Hm & ->).
  destruct (Z.eq_dec (dropped_bits N) 0) as [Hs|Hs].
  { unfold round_ne. rewrite Hs. cbn. lia. }
  destruct (dropped_bits_pos N Hs) as (Hpos & HP & Hh & Hhp & Hb).
  destruct (round_ne_cases N Hs) as [[_ ->]|[Hr Hc]]; [lia|].
  destruct (grid_multiple N m t Hs Ht Hm ltac:(lia)) as [k Hk].
  rewrite Hk in *.
  set (P := 2 ^ dropped_bits N) in *.
  pose proof (Z.mod_pos_bound N P HP) as Hrb.
  pose proof (Z.div_mod N P ltac:(lia)) as Hdm.
  assert (N / P + 1 <= k) by nia.
  destruct Hc as [-> | ->]; nia.
Qed.

Lemma round_ne_ge_grid N G : G <= N -> on_grid G -> G <= round_ne N.
Proof.
  intros HN (m & t & Ht & Hm & ->).
  destruct (Z.eq_dec (dropped_bits N) 0) as [Hs|Hs].
  { unfold round_ne. rewrite Hs. cbn. lia. }
  destruct (dropped_bits_pos N Hs) as (Hpos & HP & Hh & Hhp & Hb).
  destruct (round_ne_cases N Hs) as [[_ ->]|[Hr Hc]]; [lia|].
  assert (H2t : 0 < 2 ^ t) by (apply Z.pow_pos_nonneg; lia).
  pose proof (Z.mod_pos_bound N (2 ^ dropped_bits N) HP) as Hrb.
  pose proof (Z.div_mod N (2 ^ dropped_bits N) ltac:(lia)) as Hdm.
  assert (Hfloor : m * 2 ^ t <= N / 2 ^ dropped_bits N * 2 ^ dropped_bits N).
  { destruct (Z_le_gt_dec (2 ^ 52 * 2 ^ dropped_bits N) (m * 2 ^ t)) as [Hbig|Hsmall].
    - destruct (grid_multiple N m t Hs Ht Hm Hbig) as [k Hk]. rewrite Hk in *.
      set (P := 2 ^ dropped_bits N) in *.
      assert (k <= N / P) by nia. nia.
    - set (P := 2 ^ dropped_bits N) in *.
      assert (2 ^ 52 <= N / P) by nia. nia. }
  destruct Hc as [-> | ->]; lia.
Qed.

Lemma is_binary64_on_grid N : is_binary64 N = true -> on_grid N.
Proof.
  unfold is_binary64. intros H.
  apply andb_prop in H as [Hpos Hmod].
  apply Z.leb_le in Hpos. apply Z.eqb_eq in Hmod.
  destruct (Z.eq_dec (dropped_bits N) 0) as [Hs|Hs].
  - exists N, 0. split; [lia|]. split; [|lia]. split; [assumption|].
    destruct (Z.eq_dec N 0) as [->|Hnz]; [reflexivity|].
    destruct (Z.log2_spec N ltac:(lia)) as [_ Hhi].
    eapply Z.lt_le_trans; [exact Hhi|].
    apply Z.pow_le_mono_r; [lia|]. unfold dropped_bits in Hs. lia.
  - destruct (dropped_bits_pos N Hs) as (Hspos & HP & _ & _ & Hb).
    exists (N / 2 ^ dropped_bits N), (dropped_bits N).
    assert (Hnz : 2 ^ dropped_bits N <> 0) by lia.
    pose proof (Z.div_mod N (2 ^ dropped_bits N) Hnz) as Hdm.
    rewrite Hmod in Hdm.
    split; [lia|]. split; [|lia].
    split; [apply Z.div_pos; lia|].
    apply Z.div_lt_upper_bound; lia.
Qed.

Lemma B_pos : 0 < B.
Proof. unfold B. apply Z.pow_pos_nonneg; lia. Qed.

Lemma pow_over_B k : 0 <= k -> 2 ^ (k + 1021) = 2 ^ k * B.
Proof. intros Hk. unfold B. apply Z.pow_add_r; lia. Qed.

Lemma unit_one_B : unit_one = 9007199254740992 * B.
Proof. unfold unit_one, scale. exact (pow_over_B 53 ltac:(lia)). Qed.

Lemma pow1041_B : 2 ^ 1041 = 1048576 * B.
Proof. exact (pow_over_B 20 ltac:(lia)). Qed.

Lemma pow1040_B : 2 ^ 1040 = 524288 * B.
Proof. exact (pow_over_B 19 ltac:(lia)). Qed.

Lemma pow1093_B : 2 ^ 1093 = 4722366482869645213696 * B.
Proof. exact (pow_over_B 72 ltac:(lia)). Qed.

Lemma pow1094_B : 2 ^ 1094 = 9444732965739290427392 * B.
Proof. exact (pow_over_B 73 ltac:(lia)). Qed.

(** The largest double below 1 is [1 - 2^-53]. *)
Lemma unit_interval_bound N :
  unit_interval N = true -> 0 <= N <= 9007199254740991 * B.
Proof.
  unfold unit_interval. intros H. apply andb_prop in H as [Hd Hlt].
  apply Z.ltb_lt in Hlt. rewrite unit_one_B in Hlt.
  destruct (is_binary64_on_grid N Hd) as (m & t & Ht & Hm & ->).
  change (2 ^ 53) with 9007199254740992 in Hm.
  pose proof B_pos as HB.
  assert (H2t : 0 < 2 ^ t) by (apply Z.pow_pos_nonneg; lia).
  split; [nia|].
  destruct (Z_le_gt_dec 1021 t) as [Hge|Hlt'].
  - replace t with ((t - 1021) + 1021) in * by lia.
    rewrite pow_over_B in * by lia.
    assert (0 < 2 ^ (t - 1021)) by (apply Z.pow_pos_nonneg; lia).
    assert (m * 2 ^ (t - 1021) < 9007199254740992) by nia. nia.
  - assert (2 ^ t <= 2 ^ 1020) by (apply Z.pow_le_mono_r; lia).
    assert (2 * 2 ^ 1020 = B) by (unfold B; rewrite <- Z.pow_succ_r by lia; reflexivity).
    nia.
Qed.

(** [fl((1 - 2^-53) * 900000) = 900000 - 2^-33]: the exact product lies
    above that double, by less than half a unit in the last place. *)
Lemma mul_900000_bound N :
  0 <= N <= 900000 * (9007199254740991 * B) ->
  0 <= round_ne N <= 7730941132799999 * 2 ^ 1041.
Proof.
  intros [Hlo Hhi]. pose proof B_pos as HB. split.
  { apply round_ne_ge_grid; [assumption|]. exists 0, 0. cbn. lia. }
  destruct (Z_le_gt_dec N (7730941132799999 * 2 ^ 1041)) as [Hle|Hgt].
  { apply round_ne_le_grid; [lia|].
    exists 7730941132799999, 1041. change (2 ^ 53) with 9007199254740992. lia. }
  assert (Hlog : Z.log2 N = 1093).
  { apply Z.log2_unique; [lia|].
    change (Z.succ 1093) with 1094. rewrite pow1093_B, pow1094_B.
    rewrite pow1041_B in Hgt. lia. }
  assert (Hs : dropped_bits N = 1041) by (unfold dropped_bits; rewrite Hlog; reflexivity).
  unfold round_ne. rewrite Hs. change (1041 =? 0) with false. cbv iota.
  change (1041 - 1) with 1040. rewrite pow1040_B.
  rewrite pow1041_B in *.
  assert (Hq : N / (1048576 * B) = 7730941132799999).
  { symmetry. apply Z.div_unique with (r := N - 7730941132799999 * (1048576 * B)); lia. }
  assert (Hr : N mod (1048576 * B) = N - 7730941132799999 * (1048576 * B)).
  { symmetry. apply Z.mod_unique with (q := 7730941132799999); lia. }
  rewrite Hq, Hr.
  destruct (Z.ltb_spec (524288 * B) (N - 7730941132799999 * (1048576 * B))); [lia|].
  destruct (Z.eqb_spec (N - 7730941132799999 * (1048576 * B)) (524288 * B)); [lia|].
  cbn [orb andb]. lia.
Qed.

(** The generator stays within six digits for every double of [[0, 1)]. *)
Lemma otp_number_range random :
  unit_interval random = true -> 100000 <= otp_number random <= 999999.
Proof.
  intros Hr. apply unit_interval_bound in Hr.
  pose proof B_pos as HB.
  unfold otp_number, floor, add, mul_int, of_int.
  pose proof (mul_900000_bound (random * 900000) ltac:(lia)) as Hx.
  set (x := round_ne (random * 900000)) in *.
  assert (Hone : 0 < unit_one) by (rewrite unit_one_B; lia).
  assert (Hlow : 100000 * unit_one <= round_ne (100000 * unit_one + x)).
  { apply round_ne_ge_grid; [lia|].
    exists 100000, 1074. change (2 ^ 53) with 9007199254740992.
    unfold unit_one, scale. lia. }
  assert (Hupp : round_ne (100000 * unit_one + x) <= 8589934591999999 * 2 ^ 1041).
  { apply round_ne_le_grid.
    - rewrite unit_one_B in *. rewrite pow1041_B in *. lia.
    - exists 8589934591999999, 1041. change (2 ^ 53) with 9007199254740992. lia. }
  split.
  - apply Z.div_le_lower_bound; lia.
  - assert (round_ne (100000 * unit_one + x) / unit_one < 1000000); [|lia].
    apply Z.div_lt_upper_bound; [assumption|].
    rewrite unit_one_B in *. rewrite pow1041_B in *. lia.
Qed.
End Binary64Facts.

(* ===================================================================== *)
(** ** Facts about the printed code *)
(* ===================================================================== *)

Lemma digit_value_char d : 0 <= d <= 9 -> digit_value (digit_char d) = Some d.
Proof.
  intros Hd.
  assert (Hc : d = 0 \/ d = 1 \/ d = 2 \/ d = 3 \/ d = 4 \/ d = 5 \/ d = 6 \/ d = 7 \/ d = 8 \/ d = 9) by lia.
  repeat (destruct Hc as [-> | Hc]; [reflexivity|]). subst d. reflexivity.
Qed.

Lemma Number_toString_six c :
  100000 <= c <= 999999 -> Number_toString c = six_digits c.
Proof.
  intros Hc. unfold Number_toString.
  assert (Hlog : 16 <= Z.log2 c).
  { change 16 with (Z.log2 65536). apply Z.log2_le_mono. lia. }
  destruct (Z.to_nat (Z.log2 c)) as [|[|[|[|[|k]]]]] eqn:Hk; try lia.
  cbn [decimal_go].
  replace (c / 10 / 10) with (c / 100) by (rewrite Z.div_div by lia; reflexivity).
  replace (c / 100 / 10) with (c / 1000) by (rewrite Z.div_div by lia; reflexivity).
  replace (c / 1000 / 10) with (c / 10000) by (rewrite Z.div_div by lia; reflexivity).
  replace (c / 10000 / 10) with (c / 100000) by (rewrite Z.div_div by lia; reflexivity).
  replace (c / 100000 / 10) with (c / 1000000) by (rewrite Z.div_div by lia; reflexivity).
  destruct (Z.eqb_spec (c / 10) 0); [div_lia|].
  destruct (Z.eqb_spec (c / 100) 0); [div_lia|].
  destruct (Z.eqb_spec (c / 1000) 0); [div_lia|].
  destruct (Z.eqb_spec (c / 10000) 0); [div_lia|].
  destruct (Z.eqb_spec (c / 100000) 0); [div_lia|].
  destruct (Z.eqb_spec (c / 1000000) 0); [|div_lia].
  reflexivity.
Qed.

Lemma decimal_value_six c :
  100000 <= c <= 999999 -> decimal_value (six_digits c) = Some c.
Proof.
  intros Hc. unfold six_digits, decimal_value. cbn [decimal_value_go].
  rewrite !digit_value_char by div_lia.
  cbn [decimal_value_go]. f_equal. div_lia.
Qed.

(* ===================================================================== *)
(** ** Facts about the JavaScript operators *)
(* ===================================================================== *)

Lemma decimal_go_nonempty fuel n a acc : decimal_go fuel n (String a acc) <> "".
Proof.
  revert n a acc. induction fuel as [|fuel IH]; intros n a acc; cbn [decimal_go].
  - discriminate.
  - destruct (n / 10 =? 0); [discriminate | apply IH].
Qed.

Lemma Number_toString_nonempty n : Number_toString n <> "".
Proof.
  unfold Number_toString. cbn [decimal_go].
  destruct (n / 10 =? 0); [discriminate | apply decimal_go_nonempty].
Qed.

Lemma generate_otp_nonempty r : String.eqb (generate_otp r) "" = false.
Proof. apply String.eqb_neq, Number_toString_nonempty. Qed.

Lemma split_on_no_space s : no_space s = true -> split_on " " s = [s].
Proof.
  induction s as [|c s IH]; cbn [no_space split_on]; intros H; [reflexivity|].
  apply andb_prop in H as [Hc Hs]. apply negb_true_iff in Hc.
  rewrite Hc, (IH Hs). reflexivity.
Qed.

Lemma append_String c w x : String.append (String c w) x = String c (String.append w x).
Proof. reflexivity. Qed.

Lemma split_on_segment w rest :
  no_space w = true ->
  split_on " " (String.append w (String " " rest)) = w :: split_on " " rest.
Proof.
  induction w as [|c w IH]; cbn [no_space]; intros H.
  - reflexivity.
  - apply andb_prop in H as [Hc Hw]. apply negb_true_iff in Hc.
    rewrite append_String. cbn [split_on]. rewrite Hc, (IH Hw). reflexivity.
Qed.

(** The completion test fails exactly when the account holds a challenge,
    the submitted value is that very string and the clock has not passed
    the expiry. *)
Lemma otp_rejected_false u code t :
  otp_rejected u code t = false <-> accepts u code t.
Proof.
  unfold otp_rejected, accepts, pending_challenge.
  destruct (otp u) as [c|], (otpExpires u) as [e|]; cbn [js_not js_not_date date_gt strict_neq].
  - split.
    + rewrite !orb_false_iff. intros [[[Hne Heq] _] Ht].
      destruct code as [| | | |s|]; try discriminate.
      apply negb_false_iff, String.eqb_eq in Heq as <-.
      apply Z.ltb_ge in Ht.
      exists c, e. rewrite Hne. repeat split. assumption.
    + intros (c' & e' & Hp & -> & Ht).
      destruct (String.eqb c "") eqn:Hc; [discriminate|]. injection Hp as <- <-.
      rewrite String.eqb_refl. cbn. apply Z.ltb_ge. lia.
  - split; [|intros (? & ? & [=] & _)].
    rewrite orb_true_r. discriminate.
  - split; [discriminate | intros (? & ? & [=] & _)].
  - split; [discriminate | intros (? & ? & [=] & _)].
Qed.

Lemma otp_rejected_true u code t :
  otp_rejected u code t = true <-> ~ accepts u code t.
Proof.
  rewrite <- otp_rejected_false. destruct (otp_rejected u code t); split; congruence.
Qed.

(* ===================================================================== *)
(** ** The routes, case by case *)
(* ===================================================================== *)

Section Routes.
Context {jwt : JsonWebToken} (cfg : Config).

Ltac run_route H :=
  cbv [request_signup_otp request_otp signup login try_catch bind ret throw
       User_findOne User_create User_save sendEmail transporter_sendMail respond emit];
  rewrite ?H; cbv beta iota.

Lemma request_signup_otp_existing env nm dob em (db : Users) u :
  db !! em = Some u ->
  request_signup_otp cfg env nm dob em db
  = (Returned tt, db, [Responded 400 (msg_body "User with this email already exists.")]).
Proof. intros H. run_route H. reflexivity. Qed.

Lemma request_signup_otp_invalid env nm dob em (db : Users) :
  db !! em = None ->
  required_ok nm && required_ok (Some em) = false ->
  request_signup_otp cfg env nm dob em db
  = (Returned tt, db, [Responded 500 (server_error "User validation failed")]).
Proof.
  intros H Hv. destruct nm as [n|]; run_route H; [|reflexivity].
  rewrite Hv. reflexivity.
Qed.

Lemma request_signup_otp_fresh env n dob em (db : Users) :
  db !! em = None ->
  required_ok (Some n) && required_ok (Some em) = true ->
  let u := mkUser (new_id env) n em dob (Some (generate_otp (random env)))
             (Some (now env + 10 * 60 * 1000)) in
  request_signup_otp cfg env (Some n) dob em db
  = (Returned tt, <[em := u]> db,
     [Saved u; SendMail (challenge_mail cfg env (SignupChallenge (Some n) dob em));
      mail_line env em; Responded 200 (ok_body "OTP sent successfully.")]).
Proof.
  intros H Hv u. run_route H. rewrite Hv, H. unfold mail_line.
  destruct (mail_ok env); reflexivity.
Qed.

Lemma request_otp_unknown env em (db : Users) :
  db !! em = None ->
  request_otp cfg env em db
  = (Returned tt, db, [Responded 404 (msg_body "User not found. Please sign up first.")]).
Proof. intros H. run_route H. reflexivity. Qed.

Lemma request_otp_known env em (db : Users) u :
  db !! em = Some u ->
  let u' := set_challenge u (generate_otp (random env)) (now env + 10 * 60 * 1000) in
  request_otp cfg env em db
  = (Returned tt, <[email u := u']> db,
     [Saved u'; SendMail (challenge_mail cfg env (LoginChallenge em));
      mail_line env em; Responded 200 (ok_body "OTP sent successfully.")]).
Proof.
  intros H u'. run_route H. unfold mail_line.
  destruct (mail_ok env); reflexivity.
Qed.

Lemma complete_unknown k env em code (db : Users) :
  db !! em = None ->
  complete cfg k env em code db
  = (Returned tt, db, [Responded 400 (msg_body (unknown_email_message k))]).
Proof. intros H. destruct k; cbn [complete]; run_route H; reflexivity. Qed.

Lemma complete_rejected k env em code (db : Users) u :
  db !! em = Some u ->
  otp_rejected u code (now env) = true ->
  complete cfg k env em code db
  = (Returned tt, db, [Responded 400 (msg_body "Invalid or expired OTP.")]).
Proof.
  intros H Hr. destruct k; cbn [complete]; run_route H; rewrite Hr; reflexivity.
Qed.

Lemma complete_accepted k env em code (db : Users) u :
  db !! em = Some u ->
  otp_rejected u code (now env) = false ->
  complete cfg k env em code db
  = (Returned tt, <[email u := clear_challenge u]> db,
     [Saved (clear_challenge u);
      Responded 200 (token_body (success_message k)
                       (jwt_sign (_id u) (JWT_SECRET cfg) (now env)))]).
Proof.
  intros H Hr. destruct k; cbn [complete]; run_route H; rewrite Hr; reflexivity.
Qed.

(** A route that issues a challenge does exactly four things, in this
    order; one that does not only answers. *)
Lemma request_challenge_issues env rq (db : Users) u :
  issued_user env rq db = Some u ->
  request_challenge cfg env rq db
  = (Returned tt, <[email u := u]> db,
     [Saved u; SendMail (challenge_mail cfg env rq);
      mail_line env (challenge_email rq); Responded 200 (ok_body "OTP sent successfully.")]).
Proof.
  destruct rq as [nm dob em | em]; cbn [issued_user request_challenge challenge_email].
  - destruct (db !! em) eqn:Hdb; [discriminate|].
    destruct nm as [n|]; [|discriminate].
    destruct (required_ok (Some n) && required_ok (Some em)) eqn:Hv; [|discriminate].
    intros [= <-]. cbn [email]. now apply request_signup_otp_fresh.
  - destruct (db !! em) as [v|] eqn:Hdb; [|discriminate].
    intros [= <-]. cbn [email]. now apply request_otp_known.
Qed.

Lemma request_challenge_refuses env rq (db : Users) :
  issued_user env rq db = None ->
  exists st b,
    request_challenge cfg env rq db = (Returned tt, db, [Responded st b]) /\ st <> 200.
Proof.
  destruct rq as [nm dob em | em]; cbn [issued_user request_challenge].
  - destruct (db !! em) as [v|] eqn:Hdb.
    + intros _. eexists _, _. split; [exact (request_signup_otp_existing _ _ _ _ _ _ Hdb) | lia].
    + intros Hn. eexists _, _. split; [apply request_signup_otp_invalid; [assumption|] | lia].
      destruct nm as [n|]; [|reflexivity].
      destruct (required_ok (Some n) && required_ok (Some em)); [discriminate | reflexivity].
  - destruct (db !! em) as [v|] eqn:Hdb; [discriminate|].
    intros _. eexists _, _. split; [exact (request_otp_unknown _ _ _ Hdb) | lia].
Qed.

(** *** The collection stays keyed by address *)

Lemma keyed_by_email_empty : keyed_by_email ∅.
Proof. intros e u H. rewrite lookup_empty in H. discriminate. Qed.

Lemma keyed_by_email_insert (db : Users) u :
  keyed_by_email db -> keyed_by_email (<[email u := u]> db).
Proof.
  intros Hk e v. rewrite lookup_insert.
  case_decide as He; [intros [= <-]; assumption | apply Hk].
Qed.

Lemma request_challenge_keyed env rq (db : Users) :
  keyed_by_email db -> keyed_by_email (final_db (request_challenge cfg env rq db)).
Proof.
  intros Hk. destruct (issued_user env rq db) as [u|] eqn:Hi.
  - rewrite (request_challenge_issues _ _ _ _ Hi). now apply keyed_by_email_insert.
  - destruct (request_challenge_refuses _ _ _ Hi) as (st & b & -> & _). exact Hk.
Qed.

Lemma complete_keyed k env em code (db : Users) :
  keyed_by_email db -> keyed_by_email (final_db (complete cfg k env em code db)).
Proof.
  intros Hk. destruct (db !! em) as [u|] eqn:Hdb.
  - destruct (otp_rejected u code (now env)) eqn:Hr.
    + rewrite (complete_rejected _ _ _ _ _ _ Hdb Hr). exact Hk.
    + rewrite (complete_accepted _ _ _ _ _ _ Hdb Hr).
      change (email u) with (email (clear_challenge u)). now apply keyed_by_email_insert.
  - rewrite (complete_unknown _ _ _ _ _ Hdb). exact Hk.
Qed.

(** *** What an issuing route writes *)

(** What a challenge route writes, if anything, is the issued document. *)
Lemma saved_is_issued env rq (db : Users) u :
  In (Saved u) (events (request_challenge cfg env rq db)) ->
  issued_user env rq db = Some u.
Proof.
  destruct (issued_user env rq db) as [v|] eqn:Hi.
  - rewrite (request_challenge_issues _ _ _ _ Hi). cbn [events snd].
    intros [H|[H|[H|[H|[]]]]]; try discriminate.
    + congruence.
    + unfold mail_line in H. destruct (mail_ok env); discriminate.
  - destruct (request_challenge_refuses _ _ _ Hi) as (st & b & -> & _).
    intros [H|[]]. discriminate.
Qed.

Lemma mailed_is_issued env rq (db : Users) m :
  In (SendMail m) (events (request_challenge cfg env rq db)) ->
  m = challenge_mail cfg env rq /\ exists u, issued_user env rq db = Some u.
Proof.
  destruct (issued_user env rq db) as [v|] eqn:Hi.
  - rewrite (request_challenge_issues _ _ _ _ Hi). cbn [events snd].
    intros [H|[H|[H|[H|[]]]]]; try discriminate.
    + split; [congruence | eauto].
    + unfold mail_line in H. destruct (mail_ok env); discriminate.
  - destruct (request_challenge_refuses _ _ _ Hi) as (st & b & -> & _).
    intros [H|[]]. discriminate.
Qed.

Lemma issued_user_challenge env rq (db : Users) u :
  issued_user env rq db = Some u ->
  otp u = Some (generate_otp (random env)) /\
  otpExpires u = Some (now env + 10 * 60 * 1000).
Proof.
  destruct rq as [nm dob em | em]; cbn [issued_user].
  - destruct (db !! em); [discriminate|]. destruct nm; [|discriminate].
    destruct (_ && _); [|discriminate]. intros [= <-]. split; reflexivity.
  - destruct (db !! em); [|discriminate]. intros [= <-]. split; reflexivity.
Qed.

Lemma issued_user_email env rq (db : Users) u :
  keyed_by_email db -> issued_user env rq db = Some u -> email u = challenge_email rq.
Proof.
  intros Hk. destruct rq as [nm dob em | em]; cbn [issued_user challenge_email].
  - destruct (db !! em); [discriminate|]. destruct nm; [|discriminate].
    destruct (_ && _); [|discriminate]. intros [= <-]. reflexivity.
  - destruct (db !! em) as [v|] eqn:Hdb; [|discriminate]. intros [= <-].
    cbn [email]. exact (Hk _ _ Hdb).
Qed.

Lemma issued_user_pending env rq (db : Users) u :
  issued_user env rq db = Some u ->
  pending_challenge u = Some (generate_otp (random env), now env + 10 * 60 * 1000).
Proof.
  intros Hi. destruct (issued_user_challenge _ _ _ _ Hi) as [Ho He].
  unfold pending_challenge. rewrite Ho, He, generate_otp_nonempty. reflexivity.
Qed.

End Routes.

(* ===================================================================== *)
(** ** Properties of the specification *)
(* ===================================================================== *)

Section Claims.
Context {jwt : JsonWebToken} (cfg : Config).

Lemma status_accepted_iff k env em code (db : Users) u :
  db !! em = Some u ->
  status (events (complete cfg k env em code db)) = Some 200 <-> accepts u code (now env).
Proof.
  intros Hdb. rewrite <- otp_rejected_false.
  destruct (otp_rejected u code (now env)) eqn:Hr.
  - rewrite (complete_rejected _ _ _ _ _ _ _ Hdb Hr). cbn. split; discriminate.
  - rewrite (complete_accepted _ _ _ _ _ _ _ Hdb Hr). cbn. split; reflexivity.
Qed.

Lemma status_accepted_known k env em code (db : Users) :
  status (events (complete cfg k env em code db)) = Some 200 ->
  exists u, db !! em = Some u /\ otp_rejected u code (now env) = false.
Proof.
  destruct (db !! em) as [u|] eqn:Hdb.
  - intros H. exists u. split; [reflexivity|].
    now apply otp_rejected_false, (status_accepted_iff k env em code db u Hdb).
  - rewrite (complete_unknown _ _ _ _ _ _ Hdb). cbn. discriminate.
Qed.

(** C1, as the routes decide it.  For an existing account, either
    completion route answers 200 exactly when the account holds a
    pending challenge (a non-empty stored code with a stored expiry),
    the submitted value is that very string, and the clock is not
    after the expiry: the expiry instant itself is still accepted.
    In every other case the answer is 400 "Invalid or expired OTP.". *)
Theorem validation_accepts_iff k env em code (db : Users) u :
  db !! em = Some u ->
  (status (events (complete cfg k env em code db)) = Some 200
   <-> accepts u code (now env)) /\
  (~ accepts u code (now env) ->
   response (events (complete cfg k env em code db))
   = Some (400, msg_body "Invalid or expired OTP.")).
Proof.
  intros Hdb. split; [now apply status_accepted_iff|].
  intros Hn. apply otp_rejected_true in Hn.
  rewrite (complete_rejected _ _ _ _ _ _ _ Hdb Hn). reflexivity.
Qed.

(** A submission that matches only numerically is turned down: the
    comparison is on strings. *)
Lemma numeric_code_rejected k env em n (db : Users) u :
  db !! em = Some u ->
  response (events (complete cfg k env em (JsNumber n) db))
  = Some (400, msg_body "Invalid or expired OTP.").
Proof.
  intros Hdb. rewrite (complete_rejected _ _ _ _ _ _ _ Hdb); [reflexivity|].
  apply otp_rejected_true. intros (c & e & _ & [=] & _).
Qed.

(** C3, as the routes answer.  A login completion for an address without
    an account and one for an existing account with a code that is not
    accepted are both answered with status 400 and no token, but with
    different messages, "Invalid credentials." and "Invalid or expired
    OTP.": the body tells the two cases apart, the status does not. *)
Theorem login_failure_responses env1 env2 em1 em2 code1 code2 (db1 db2 : Users) u :
  db1 !! em1 = None ->
  db2 !! em2 = Some u ->
  ~ accepts u code2 (now env2) ->
  response (events (login cfg env1 em1 code1 db1))
  = Some (400, msg_body "Invalid credentials.") /\
  response (events (login cfg env2 em2 code2 db2))
  = Some (400, msg_body "Invalid or expired OTP.") /\
  status (events (login cfg env1 em1 code1 db1))
  = status (events (login cfg env2 em2 code2 db2)) /\
  response (events (login cfg env1 em1 code1 db1))
  <> response (events (login cfg env2 em2 code2 db2)).
Proof.
  intros H1 H2 Hn. apply otp_rejected_true in Hn.
  pose proof (complete_unknown cfg Login env1 em1 code1 db1 H1) as E1.
  pose proof (complete_rejected cfg Login env2 em2 code2 db2 u H2 Hn) as E2.
  cbn [complete unknown_email_message] in E1, E2. rewrite E1, E2.
  cbn. repeat split. discriminate.
Qed.

(** Every way of failing on an existing account gets the same answer. *)
Lemma rejections_on_account_alike k1 k2 env1 env2 em1 em2 code1 code2 (db1 db2 : Users) u1 u2 :
  db1 !! em1 = Some u1 -> db2 !! em2 = Some u2 ->
  ~ accepts u1 code1 (now env1) -> ~ accepts u2 code2 (now env2) ->
  events (complete cfg k1 env1 em1 code1 db1) = events (complete cfg k2 env2 em2 code2 db2).
Proof.
  intros H1 H2 N1 N2. apply otp_rejected_true in N1, N2.
  rewrite (complete_rejected _ _ _ _ _ _ _ H1 N1), (complete_rejected _ _ _ _ _ _ _ H2 N2).
  reflexivity.
Qed.

(** An account without a pending challenge stays as it is under every
    request except a login challenge request for its own address, and a
    completion attempt for it is answered 400. *)
Lemma no_challenge_step em r (db : Users) v :
  keyed_by_email db ->
  db !! em = Some v ->
  pending_challenge v = None ->
  reissues em r = false ->
  final_db (route cfg r db) !! em = Some v /\
  (completion_for em r = true ->
   response (events (route cfg r db)) = Some (400, msg_body "Invalid or expired OTP.")).
Proof.
  intros Hk Hdb Hp Hre. destruct r as [env rq | k env em' code]; cbn [route completion_for].
  - split; [|discriminate].
    destruct (issued_user env rq db) as [u|] eqn:Hi.
    + rewrite (request_challenge_issues _ _ _ _ _ Hi). cbn [final_db fst snd].
      rewrite lookup_insert_ne; [assumption|].
      rewrite (issued_user_email _ _ _ _ Hk Hi).
      destruct rq as [nm dob e' | e']; cbn [challenge_email issued_user reissues] in *.
      * intros ->. rewrite Hdb in Hi. discriminate.
      * now apply String.eqb_neq.
    + destruct (request_challenge_refuses cfg _ _ _ Hi) as (st & b & -> & _). exact Hdb.
  - destruct (String.eqb_spec em' em) as [->|Hne].
    + assert (Hr : otp_rejected v code (now env) = true).
      { apply otp_rejected_true. intros (c & e & Hc & _). congruence. }
      rewrite (complete_rejected _ _ _ _ _ _ _ Hdb Hr). split; [exact Hdb | reflexivity].
    + split; [|discriminate].
      destruct (db !! em') as [u|] eqn:Hdb'.
      * destruct (otp_rejected u code (now env)) eqn:Hr.
        -- rewrite (complete_rejected _ _ _ _ _ _ _ Hdb' Hr). exact Hdb.
        -- rewrite (complete_accepted _ _ _ _ _ _ _ Hdb' Hr). cbn [final_db fst snd].
           rewrite lookup_insert_ne; [assumption|]. now rewrite (Hk _ _ Hdb').
      * rewrite (complete_unknown _ _ _ _ _ _ Hdb'). exact Hdb.
Qed.

Lemma route_keyed r (db : Users) :
  keyed_by_email db -> keyed_by_email (final_db (route cfg r db)).
Proof.
  destruct r; cbn [route]; [apply request_challenge_keyed | apply complete_keyed].
Qed.

Lemma no_challenge_run em l : forall (db : Users) v,
  keyed_by_email db ->
  db !! em = Some v ->
  pending_challenge v = None ->
  forallb (fun r => negb (reissues em r)) l = true ->
  Forall2 (fun r resp =>
             completion_for em r = true ->
             resp = Some (400, msg_body "Invalid or expired OTP."))
          l (snd (serve cfg l db)).
Proof.
  induction l as [|r rest IH]; intros db v Hk Hdb Hp Hall; cbn [serve].
  - constructor.
  - cbn [forallb] in Hall. apply andb_prop in Hall as [Hr Hrest].
    apply negb_true_iff in Hr.
    destruct (no_challenge_step em r db v Hk Hdb Hp Hr) as [Hdb' Hresp].
    pose proof (IH _ v (route_keyed r db Hk) Hdb' Hp Hrest) as Htail.
    destruct (serve cfg rest (final_db (route cfg r db))) as [db'' rs].
    cbn [snd] in *. constructor; assumption.
Qed.

(** What a request does to the challenge of an account: a login
    challenge request for its address sets the new code and expiry, any
    other request leaves the challenge as it is or clears it. *)
Lemma pending_step em r (db : Users) v :
  keyed_by_email db ->
  db !! em = Some v ->
  exists v',
    final_db (route cfg r db) !! em = Some v' /\
    match r with
    | Challenge env (LoginChallenge em') =>
        if String.eqb em' em
        then pending_challenge v'
             = Some (generate_otp (random env), now env + 10 * 60 * 1000)
        else v' = v
    | _ => pending_challenge v' = pending_challenge v \/ pending_challenge v' = None
    end.
Proof.
  intros Hk Hdb. destruct r as [env rq | k env em' code]; cbn [route].
  - destruct (issued_user env rq db) as [u|] eqn:Hi.
    + rewrite (request_challenge_issues _ _ _ _ _ Hi). cbn [final_db fst snd].
      pose proof (issued_user_email _ _ _ _ Hk Hi) as He.
      pose proof (issued_user_pending _ _ _ _ Hi) as Hp.
      destruct rq as [nm dob e' | e']; cbn [challenge_email issued_user] in *.
      * exists v. split; [|left; reflexivity].
        rewrite lookup_insert_ne; [assumption|].
        rewrite He. intros ->. rewrite Hdb in Hi. discriminate.
      * rewrite He. destruct (String.eqb_spec e' em) as [->|Hne].
        -- exists u. split; [apply lookup_insert_eq | exact Hp].
        -- exists v. split; [|reflexivity]. now rewrite lookup_insert_ne.
    + destruct (request_challenge_refuses cfg _ _ _ Hi) as (st & b & -> & _).
      exists v. split; [exact Hdb|].
      destruct rq as [nm dob e' | e']; [left; reflexivity|].
      cbn [issued_user] in Hi. destruct (String.eqb_spec e' em) as [->|Hne]; [|reflexivity].
      rewrite Hdb in Hi. discriminate.
  - destruct (String.eqb_spec em' em) as [->|Hne].
    + destruct (otp_rejected v code (now env)) eqn:Hr.
      * rewrite (complete_rejected _ _ _ _ _ _ _ Hdb Hr). exists v. split; [exact Hdb | now left].
      * rewrite (complete_accepted _ _ _ _ _ _ _ Hdb Hr). cbn [final_db fst snd].
        rewrite (Hk _ _ Hdb). exists (clear_challenge v).
        split; [apply lookup_insert_eq | right; reflexivity].
    + exists v. split; [|now left].
      destruct (db !! em') as [u|] eqn:Hdb'.
      * destruct (otp_rejected u code (now env)) eqn:Hr.
        -- rewrite (complete_rejected _ _ _ _ _ _ _ Hdb' Hr). exact Hdb.
        -- rewrite (complete_accepted _ _ _ _ _ _ _ Hdb' Hr). cbn [final_db fst snd].
           rewrite lookup_insert_ne; [assumption|]. now rewrite (Hk _ _ Hdb').
      * rewrite (complete_unknown _ _ _ _ _ _ Hdb'). exact Hdb.
Qed.

(** The challenge an account holds after any requests: none, or the one
    it held before if no login challenge was requested for its address,
    or the one of the last login challenge request for its address. *)
Lemma pending_run em l : forall (db : Users) v,
  keyed_by_email db ->
  db !! em = Some v ->
  exists v',
    fst (serve cfg l db) !! em = Some v' /\
    (pending_challenge v' = None \/
     (pending_challenge v' = pending_challenge v /\
      forallb (fun r => negb (reissues em r)) l = true) \/
     exists l1 env l2,
       l = (l1 ++ Challenge env (LoginChallenge em) :: l2)%list /\
       forallb (fun r => negb (reissues em r)) l2 = true /\
       pending_challenge v'
       = Some (generate_otp (random env), now env + 10 * 60 * 1000)).
Proof.
  induction l as [|r rest IH]; intros db v Hk Hdb; cbn [serve].
  - exists v. split; [exact Hdb | right; left; split; reflexivity].
  - destruct (pending_step em r db v Hk Hdb) as (v1 & Hdb1 & Hstep).
    destruct (IH _ v1 (route_keyed r db Hk) Hdb1) as (v2 & Hdb2 & Hrun).
    destruct (serve cfg rest (final_db (route cfg r db))) as [db2 rs]. cbn [fst] in *.
    exists v2. split; [exact Hdb2|].
    destruct Hrun as [Hnone | [[Hsame Hall] | (l1 & env & l2 & -> & Hall & Hp)]].
    + now left.
    + cbn [forallb]. destruct r as [env [nm dob e' | e'] | k env e' code]; cbn [reissues negb andb].
      * destruct Hstep as [H|H]; [right; left; split | left]; congruence.
      * destruct (String.eqb_spec e' em) as [->|Hne].
        -- right. right. exists [], env, rest. repeat split; [exact Hall | congruence].
        -- subst v1. right. left. split; assumption.
      * destruct Hstep as [H|H]; [right; left; split | left]; congruence.
    + right. right. exists (r :: l1), env, l2. repeat split; assumption.
Qed.

Lemma serve_snoc l r : forall (db : Users),
  fst (serve cfg (l ++ [r]) db) = final_db (route cfg r (fst (serve cfg l db))).
Proof.
  induction l as [|r0 rest IH]; intros db; cbn [serve app].
  - reflexivity.
  - specialize (IH (final_db (route cfg r0 db))).
    destruct (serve cfg (rest ++ [r]) (final_db (route cfg r0 db))) as [db1 rs1].
    destruct (serve cfg rest (final_db (route cfg r0 db))) as [db2 rs2].
    exact IH.
Qed.

Lemma serve_keyed l : forall (db : Users),
  keyed_by_email db -> keyed_by_email (fst (serve cfg l db)).
Proof.
  induction l as [|r rest IH]; intros db Hk; cbn [serve]; [exact Hk|].
  specialize (IH _ (route_keyed r db Hk)).
  destruct (serve cfg rest (final_db (route cfg r db))) as [db2 rs]. exact IH.
Qed.

(** C4, as the routes behave.  When a completion route accepts, it
    writes the account back with both challenge fields unset before it
    answers (the write is the event before the response).  Afterwards,
    through any sequence of requests to the four routes:
    - as long as no new login challenge is requested for the address,
      every completion attempt for it, with the same code or any other,
      at any time and on either route, is answered 400;
    - a completion attempt for the address is accepted only against a
      login challenge requested after the acceptance and not replaced
      since, when the submitted code is the code of that challenge and
      the clock has not passed its ten minutes;
    - such a challenge is honoured whatever it has drawn, the consumed
      code included: right after it, the attempts accepted are exactly
      those with its code within its ten minutes. *)
Theorem accepted_challenge_cleared_until_reissued k env em code (db : Users) :
  keyed_by_email db ->
  status (events (complete cfg k env em code db)) = Some 200 ->
  exists u tok,
    db !! em = Some u /\
    events (complete cfg k env em code db)
    = [Saved (clear_challenge u); Responded 200 (token_body (success_message k) tok)] /\
    final_db (complete cfg k env em code db) !! em = Some (clear_challenge u) /\
    otp (clear_challenge u) = None /\ otpExpires (clear_challenge u) = None /\
    (forall l,
       forallb (fun r => negb (reissues em r)) l = true ->
       Forall2 (fun r resp =>
                  completion_for em r = true ->
                  resp = Some (400, msg_body "Invalid or expired OTP."))
               l (snd (serve cfg l (final_db (complete cfg k env em code db))))) /\
    (forall l k' env' code',
       status (events (complete cfg k' env' em code'
                         (fst (serve cfg l (final_db (complete cfg k env em code db))))))
       = Some 200 ->
       exists l1 env2 l2,
         l = (l1 ++ Challenge env2 (LoginChallenge em) :: l2)%list /\
         forallb (fun r => negb (reissues em r)) l2 = true /\
         code' = JsString (generate_otp (random env2)) /\
         now env' <= now env2 + 600000) /\
    (forall l env2 k' env' code',
       status (events (complete cfg k' env' em code'
                         (fst (serve cfg (l ++ [Challenge env2 (LoginChallenge em)])
                                 (final_db (complete cfg k env em code db))))))
       = Some 200
       <-> code' = JsString (generate_otp (random env2)) /\ now env' <= now env2 + 600000).
Proof.
  intros Hk Hs. destruct (status_accepted_known _ _ _ _ _ Hs) as (u & Hdb & Hr).
  exists u, (jwt_sign (_id u) (JWT_SECRET cfg) (now env)).
  pose proof (complete_keyed cfg k env em code db Hk) as Hk'.
  rewrite (complete_accepted _ _ _ _ _ _ _ Hdb Hr) in *. cbn [events final_db fst snd] in *.
  rewrite (Hk _ _ Hdb) in *.
  assert (Hl : (<[em := clear_challenge u]> db : Users) !! em = Some (clear_challenge u))
    by apply lookup_insert_eq.
  split; [exact Hdb|]. split; [reflexivity|]. split; [exact Hl|].
  split; [reflexivity|]. split; [reflexivity|]. split; [|split].
  - intros l Hall. now apply (no_challenge_run em l _ (clear_challenge u)).
  - intros l k' env' code' Hacc.
    destruct (pending_run em l _ _ Hk' Hl) as (v' & Hv' & Hcases).
    apply (status_accepted_iff k' env' em code' _ v' Hv') in Hacc.
    destruct Hacc as (c & e & Hp & -> & Ht).
    destruct Hcases as [Hnone | [[Hsame _] | (l1 & env2 & l2 & -> & Hall & Hnew)]].
    + congruence.
    + rewrite Hsame in Hp. discriminate Hp.
    + exists l1, env2, l2. rewrite Hnew in Hp. injection Hp as <- <-.
      repeat split; [exact Hall | lia].
  - intros l env2 k' env' code'. rewrite serve_snoc. cbn [route request_challenge].
    destruct (pending_run em l _ _ Hk' Hl) as (v' & Hv' & _).
    pose proof (serve_keyed l _ Hk') as Hk2.
    rewrite (request_otp_known cfg _ _ _ _ Hv'). cbn [final_db fst snd].
    rewrite (Hk2 _ _ Hv').
    rewrite (status_accepted_iff k' env' em code' _ _ (lookup_insert_eq _ _ _)).
    unfold accepts, pending_challenge, set_challenge. cbn [otp otpExpires].
    rewrite generate_otp_nonempty. split.
    + intros (c & e & [= <- <-] & -> & Ht). split; [reflexivity | lia].
    + intros [-> Ht]. eexists _, _. repeat split. lia.
Qed.

(** C5.  A signup challenge request for an address that already has an
    account is answered 400 "User with this email already exists." and
    does nothing else: no document is written, no mail is handed to the
    transport, and the account is found afterwards exactly as before. *)
Theorem signup_request_existing_account env nm dob em (db : Users) u :
  db !! em = Some u ->
  events (request_signup_otp cfg env nm dob em db)
  = [Responded 400 (msg_body "User with this email already exists.")] /\
  final_db (request_signup_otp cfg env nm dob em db) = db /\
  final_db (request_signup_otp cfg env nm dob em db) !! em = Some u /\
  (forall v, ~ In (Saved v) (events (request_signup_otp cfg env nm dob em db))) /\
  (forall m, ~ In (SendMail m) (events (request_signup_otp cfg env nm dob em db))).
Proof.
  intros Hdb. rewrite (request_signup_otp_existing _ _ _ _ _ _ _ Hdb).
  cbn [events final_db fst snd]. repeat split; try assumption.
  - intros v [H|[]]. discriminate.
  - intros m [H|[]]. discriminate.
Qed.

(** C6.  A completion request that is not accepted leaves the collection
    untouched and writes nothing, so the stored code can be submitted
    again: while the clock has not passed its expiry the very next
    attempt with it succeeds. *)
Theorem rejection_leaves_challenge k env em code (db : Users) :
  status (events (complete cfg k env em code db)) <> Some 200 ->
  final_db (complete cfg k env em code db) = db /\
  (forall v, ~ In (Saved v) (events (complete cfg k env em code db))) /\
  (forall u c e k' env',
      db !! em = Some u -> pending_challenge u = Some (c, e) -> now env' <= e ->
      status (events (complete cfg k' env' em (JsString c)
                        (final_db (complete cfg k env em code db)))) = Some 200).
Proof.
  intros Hs.
  assert (Hsame : final_db (complete cfg k env em code db) = db /\
                  forall v, ~ In (Saved v) (events (complete cfg k env em code db))).
  { destruct (db !! em) as [u|] eqn:Hdb.
    - destruct (otp_rejected u code (now env)) eqn:Hr.
      + rewrite (complete_rejected _ _ _ _ _ _ _ Hdb Hr). cbn.
        split; [reflexivity | intros v [H|[]]; discriminate].
      + exfalso. apply Hs. rewrite (complete_accepted _ _ _ _ _ _ _ Hdb Hr). reflexivity.
    - rewrite (complete_unknown _ _ _ _ _ _ Hdb). cbn.
      split; [reflexivity | intros v [H|[]]; discriminate]. }
  destruct Hsame as [Heq Hno]. repeat split; [assumption | assumption |].
  intros u c e k' env' Hdb Hp Ht. rewrite Heq.
  apply (status_accepted_iff k' env' em (JsString c) db u Hdb).
  exists c, e. repeat split; assumption.
Qed.

(** C7.  Whatever document a challenge route writes, for a signup or
    for a login, carries a code of exactly six decimal digits denoting a
    number between 100000 and 999999, and an expiry equal to the time of
    the request plus 600000 ms; that document is the one then found
    under its address.  [Math.random()] is any double in [[0, 1)]. *)
Theorem issued_challenge_six_digits_ten_minutes env rq (db : Users) u :
  Binary64.unit_interval (random env) = true ->
  In (Saved u) (events (request_challenge cfg env rq db)) ->
  exists c code,
    100000 <= c <= 999999 /\
    otp u = Some code /\ String.length code = 6%nat /\ decimal_value code = Some c /\
    otpExpires u = Some (now env + 600000) /\
    final_db (request_challenge cfg env rq db) !! email u = Some u.
Proof.
  intros Hr Hin. apply saved_is_issued in Hin.
  pose proof (Binary64Facts.otp_number_range _ Hr) as Hc.
  destruct (issued_user_challenge _ _ _ _ Hin) as [Ho He].
  exists (otp_number (random env)), (generate_otp (random env)).
  unfold generate_otp in *. rewrite (Number_toString_six _ Hc) in *.
  repeat split; try lia; try assumption.
  - now apply decimal_value_six.
  - rewrite (request_challenge_issues _ _ _ _ _ Hin). apply lookup_insert_eq.
Qed.

(** C8.  When the transport fails on the mail of a challenge request,
    the route has already written the challenge, only prints the error,
    and still answers 200: the account is left holding the pending code
    (nothing is undone), and that code is accepted by a completion
    request made before it expires. *)
Theorem mail_failure_keeps_challenge env rq (db : Users) m :
  keyed_by_email db ->
  mail_ok env = false ->
  In (SendMail m) (events (request_challenge cfg env rq db)) ->
  exists u,
    events (request_challenge cfg env rq db)
    = [Saved u; SendMail m;
       ConsoleError (String.append "Error sending email to "
                       (String.append (challenge_email rq) ":"));
       Responded 200 (ok_body "OTP sent successfully.")] /\
    final_db (request_challenge cfg env rq db) !! challenge_email rq = Some u /\
    pending_challenge u = Some (generate_otp (random env), now env + 600000) /\
    forall k env',
      now env' <= now env + 600000 ->
      status (events (complete cfg k env' (challenge_email rq)
                        (JsString (generate_otp (random env)))
                        (final_db (request_challenge cfg env rq db)))) = Some 200.
Proof.
  intros Hk Hmail Hin. destruct (mailed_is_issued cfg _ _ _ _ Hin) as [-> [u Hi]].
  exists u. rewrite (request_challenge_issues _ _ _ _ _ Hi).
  cbn [events final_db fst snd]. unfold mail_line. rewrite Hmail.
  rewrite (issued_user_email _ _ _ _ Hk Hi).
  assert (Hl : (<[challenge_email rq := u]> db : Users) !! challenge_email rq = Some u)
    by apply lookup_insert_eq.
  pose proof (issued_user_pending _ _ _ _ Hi) as Hp.
  repeat split; try assumption.
  intros k env' Ht. apply (status_accepted_iff k env' _ _ _ u Hl).
  eexists _, _. repeat split; [exact Hp | lia].
Qed.

(** A successful delivery differs only in the console line. *)
Lemma mail_success_logged env rq (db : Users) u :
  mail_ok env = true ->
  issued_user env rq db = Some u ->
  events (request_challenge cfg env rq db)
  = [Saved u; SendMail (challenge_mail cfg env rq);
     ConsoleLog (String.append "Email sent to " (challenge_email rq));
     Responded 200 (ok_body "OTP sent successfully.")].
Proof.
  intros Hm Hi. rewrite (request_challenge_issues _ _ _ _ _ Hi).
  unfold mail_line. rewrite Hm. reflexivity.
Qed.

(** C9.  A login challenge request for an address without an account is
    answered 404 "User not found. Please sign up first." and does
    nothing else: nothing is written, nothing is mailed, the collection
    is unchanged. *)
Theorem login_request_unknown_account env em (db : Users) :
  db !! em = None ->
  events (request_otp cfg env em db)
  = [Responded 404 (msg_body "User not found. Please sign up first.")] /\
  final_db (request_otp cfg env em db) = db /\
  (forall v, ~ In (Saved v) (events (request_otp cfg env em db))) /\
  (forall m, ~ In (SendMail m) (events (request_otp cfg env em db))).
Proof.
  intros Hdb. rewrite (request_otp_unknown _ _ _ _ Hdb).
  cbn [events final_db fst snd]. repeat split.
  - intros v [H|[]]. discriminate.
  - intros m [H|[]]. discriminate.
Qed.

(** Whatever the first signup request of an address was, once it has
    issued its challenge every further signup request for that address
    is refused and the first challenge stays in force. *)
Lemma signup_resend_always_refused env env' nm dob nm' dob' em (db : Users) u :
  issued_user env (SignupChallenge nm dob em) db = Some u ->
  request_signup_otp cfg env' nm' dob' em
    (final_db (request_challenge cfg env (SignupChallenge nm dob em) db))
  = (Returned tt, <[em := u]> db,
     [Responded 400 (msg_body "User with this email already exists.")]) /\
  pending_challenge u = Some (generate_otp (random env), now env + 600000).
Proof.
  intros Hi. pose proof (issued_user_pending _ _ _ _ Hi) as Hp.
  assert (He : email u = em).
  { cbn [issued_user] in Hi. destruct (db !! em); [discriminate|].
    destruct nm; [|discriminate]. destruct (_ && _); [|discriminate].
    injection Hi as <-. reflexivity. }
  rewrite (request_challenge_issues _ _ _ _ _ Hi). cbn [final_db fst snd].
  rewrite He. split; [|exact Hp].
  apply (request_signup_otp_existing cfg env' nm' dob' em _ u), lookup_insert_eq.
Qed.

(** In the login flow a new request does replace the pending challenge:
    the earlier code is turned down from then on, unless the generator
    drew the same code again. *)
Lemma login_resend_overwrites env em (db : Users) u old e :
  keyed_by_email db ->
  db !! em = Some u ->
  pending_challenge u = Some (old, e) ->
  old <> generate_otp (random env) ->
  forall k env',
    response (events (complete cfg k env' em (JsString old)
                        (final_db (request_otp cfg env em db))))
    = Some (400, msg_body "Invalid or expired OTP.").
Proof.
  intros Hk Hdb Hp Hne k env'.
  rewrite (request_otp_known _ _ _ _ _ Hdb). cbn [final_db fst snd].
  rewrite (Hk _ _ Hdb).
  erewrite complete_rejected; [reflexivity | apply lookup_insert_eq |].
  apply otp_rejected_true. intros (c & e' & Hc & [= ->] & _).
  unfold pending_challenge, set_challenge in Hc. cbn [otp otpExpires] in Hc.
  rewrite generate_otp_nonempty in Hc. congruence.
Qed.

Lemma header_token_segments w tok :
  no_space w = true -> no_space tok = true ->
  header_token (Some (String.append w (String " " tok))) = Some tok.
Proof.
  intros Hw Ht. unfold header_token.
  rewrite (split_on_segment _ _ Hw), (split_on_no_space _ Ht). reflexivity.
Qed.

Lemma header_token_single h : no_space h = true -> header_token (Some h) = None.
Proof. intros Hh. unfold header_token. rewrite (split_on_no_space _ Hh). reflexivity. Qed.

(** C10.  The guard reads the second space-separated segment of the
    [Authorization] header and never looks at the first: behind any
    scheme word, a token that [jwt.verify] accepts lets the request
    through to the protected handler with the decoded user.  Without
    the header, or with a header of a single segment, the answer is 401
    "No token, authorization denied." and the protected handler is not
    entered (the outcome does not depend on it). *)
Theorem guard_takes_second_segment env word tok decoded next (db : Users) :
  no_space word = true ->
  no_space tok = true ->
  tok <> "" ->
  jwt_verify tok (JWT_SECRET cfg) (now env) = Returned decoded ->
  authMiddleware cfg env (Some (String.append word (String " " tok))) next db
  = next decoded db /\
  authMiddleware cfg env None next db
  = (Returned tt, db, [Responded 401 (msg_body "No token, authorization denied.")]) /\
  authMiddleware cfg env (Some word) next db
  = (Returned tt, db, [Responded 401 (msg_body "No token, authorization denied.")]).
Proof.
  intros Hw Ht Hne Hv. unfold authMiddleware.
  rewrite (header_token_segments _ _ Hw Ht), (header_token_single _ Hw).
  destruct tok as [|c tok']; [contradiction|].
  rewrite Hv. repeat split.
Qed.

(** An empty second segment, as in ["Bearer "], is no token either, and
    a token the library refuses is answered 401 as well. *)
Lemma guard_rejects env next (db : Users) :
  (forall word, no_space word = true ->
     authMiddleware cfg env (Some (String.append word " ")) next db
     = (Returned tt, db, [Responded 401 (msg_body "No token, authorization denied.")])) /\
  (forall word tok msg, no_space word = true -> no_space tok = true -> tok <> "" ->
     jwt_verify tok (JWT_SECRET cfg) (now env) = Thrown msg ->
     authMiddleware cfg env (Some (String.append word (String " " tok))) next db
     = (Returned tt, db, [Responded 401 (mkBody None "Token is not valid." None (Some msg))])).
Proof.
  split.
  - intros word Hw. unfold authMiddleware.
    rewrite (header_token_segments word "" Hw eq_refl). reflexivity.
  - intros word tok msg Hw Ht Hne Hv. unfold authMiddleware.
    rewrite (header_token_segments _ _ Hw Ht).
    destruct tok as [|c tok']; [contradiction|].
    rewrite Hv. reflexivity.
Qed.

End Claims.

(* ===================================================================== *)
(** ** Further properties of the authentication routes *)
(* ===================================================================== *)

Section AuthRoutes.
Context {jwt : JsonWebToken} (cfg : Config).

(** X1.  A signup challenge request for a new address whose [name] is
    missing or empty, or whose address is empty, fails the schema
    validation: the answer is 500 "Server error." and nothing is stored
    or mailed. *)
Theorem signup_request_invalid_fields env nm dob em (db : Users) :
  db !! em = None ->
  nm = None \/ nm = Some "" \/ em = "" ->
  exists msg,
    events (request_signup_otp cfg env nm dob em db) = [Responded 500 (server_error msg)] /\
    final_db (request_signup_otp cfg env nm dob em db) = db.
Proof.
  intros Hdb Hbad. exists "User validation failed".
  rewrite (request_signup_otp_invalid cfg env nm dob em db Hdb); [split; reflexivity|].
  destruct Hbad as [-> | [-> | ->]]; [reflexivity | reflexivity |].
  apply andb_false_r.
Qed.

(** A route writes at most the document of the address it is asked about. *)
Lemma route_frame r (db : Users) em' :
  keyed_by_email db ->
  em' <> request_email r ->
  final_db (route cfg r db) !! em' = db !! em'.
Proof.
  intros Hk Hne. destruct r as [env rq | k env em code]; cbn [route request_email] in *.
  - destruct (issued_user env rq db) as [u|] eqn:Hi.
    + rewrite (request_challenge_issues cfg _ _ _ _ Hi). cbn [final_db fst snd].
      rewrite (issued_user_email _ _ _ _ Hk Hi). now apply lookup_insert_ne.
    + destruct (request_challenge_refuses cfg _ _ _ Hi) as (st & b & -> & _). reflexivity.
  - destruct (db !! em) as [u|] eqn:Hdb.
    + destruct (otp_rejected u code (now env)) eqn:Hr.
      * now rewrite (complete_rejected cfg _ _ _ _ _ _ Hdb Hr).
      * rewrite (complete_accepted cfg _ _ _ _ _ _ Hdb Hr). cbn [final_db fst snd].
        rewrite (Hk _ _ Hdb). now apply lookup_insert_ne.
    + now rewrite (complete_unknown cfg _ _ _ _ _ Hdb).
Qed.


Lemma route_keeps_identity r (db : Users) em u :
  keyed_by_email db ->
  db !! em = Some u ->
  exists u', final_db (route cfg r db) !! em = Some u' /\ identity u' = identity u.
Proof.
  intros Hk Hdb. destruct (String.eqb_spec em (request_email r)) as [He|Hne].
  2:{ exists u. split; [|reflexivity]. now rewrite route_frame. }
  destruct r as [env rq | k env em0 code]; cbn [route request_email] in *.
  - destruct (issued_user env rq db) as [v|] eqn:Hi.
    + rewrite (request_challenge_issues cfg _ _ _ _ Hi). cbn [final_db fst snd].
      rewrite (issued_user_email _ _ _ _ Hk Hi), <- He, lookup_insert_eq.
      exists v. split; [reflexivity|].
      destruct rq as [nm dob e0 | e0]; cbn [issued_user challenge_email] in *; subst e0.
      * rewrite Hdb in Hi. discriminate.
      * rewrite Hdb in Hi. injection Hi as <-. reflexivity.
    + destruct (request_challenge_refuses cfg _ _ _ Hi) as (st & b & -> & _). eauto.
  - subst em0. destruct (otp_rejected u code (now env)) eqn:Hr.
    + rewrite (complete_rejected cfg _ _ _ _ _ _ Hdb Hr). eauto.
    + rewrite (complete_accepted cfg _ _ _ _ _ _ Hdb Hr). cbn [final_db fst snd].
      rewrite (Hk _ _ Hdb), lookup_insert_eq. eexists. split; reflexivity.
Qed.

(** X3.  Through any sequence of requests to the authentication routes an
    account, once it exists, is never removed, and its [_id], [name],
    [email] and [dateOfBirth] never change. *)
Theorem account_identity_preserved l : forall (db : Users) em u,
  keyed_by_email db ->
  db !! em = Some u ->
  exists u', fst (serve cfg l db) !! em = Some u' /\ identity u' = identity u.
Proof.
  induction l as [|r rest IH]; intros db em u Hk Hdb; cbn [serve].
  - exists u. split; [assumption | reflexivity].
  - destruct (route_keeps_identity r db em u Hk Hdb) as (u1 & Hdb1 & Hid1).
    destruct (IH _ em u1 (route_keyed cfg r db Hk) Hdb1) as (u2 & Hdb2 & Hid2).
    destruct (serve cfg rest (final_db (route cfg r db))) as [db2 rs]. cbn [fst] in *.
    exists u2. split; [assumption | congruence].
Qed.

(** X4.  Every request to an authentication route is answered exactly
    once, as the last thing the handler does, with status 200, 400, 404
    or 500. *)
Theorem route_answers_once r (db : Users) :
  exists st b,
    responses (events (route cfg r db)) = [(st, b)] /\
    last (events (route cfg r db)) = Some (Responded st b) /\
    (st = 200 \/ st = 400 \/ st = 404 \/ st = 500).
Proof.
  destruct r as [env rq | k env em code]; cbn [route].
  - destruct (issued_user env rq db) as [u|] eqn:Hi.
    + rewrite (request_challenge_issues cfg _ _ _ _ Hi). cbn [events snd].
      exists 200, (ok_body "OTP sent successfully."). unfold mail_line.
      destruct (mail_ok env); repeat split; auto.
    + destruct rq as [nm dob em | em]; cbn [issued_user request_challenge] in *.
      * destruct (db !! em) as [v|] eqn:Hdb.
        -- rewrite (request_signup_otp_existing cfg _ _ _ _ _ _ Hdb).
           eexists _, _. repeat split; auto.
        -- rewrite (request_signup_otp_invalid cfg env nm dob em db Hdb).
           ++ eexists _, _. repeat split; auto.
           ++ destruct nm as [n|]; [|reflexivity].
              destruct (required_ok (Some n) && required_ok (Some em)); [discriminate|reflexivity].
      * destruct (db !! em) as [v|] eqn:Hdb; [discriminate|].
        rewrite (request_otp_unknown cfg _ _ _ Hdb). eexists _, _. repeat split; auto.
  - destruct (db !! em) as [u|] eqn:Hdb.
    + destruct (otp_rejected u code (now env)) eqn:Hr.
      * rewrite (complete_rejected cfg _ _ _ _ _ _ Hdb Hr). eexists _, _. repeat split; auto.
      * rewrite (complete_accepted cfg _ _ _ _ _ _ Hdb Hr). eexists _, _. repeat split; auto.
    + rewrite (complete_unknown cfg _ _ _ _ _ Hdb). eexists _, _. repeat split; auto.
Qed.

Lemma issued_user_any_env env env' rq (db : Users) :
  is_Some (issued_user env rq db) -> is_Some (issued_user env' rq db).
Proof.
  destruct rq as [nm dob em | em]; cbn [issued_user].
  - destruct (db !! em); [intros [? [=]]|]. destruct nm; [|intros [? [=]]].
    destruct (_ && _); [eauto | intros [? [=]]].
  - destruct (db !! em); [eauto | intros [? [=]]].
Qed.

(** X5.  The answer to a challenge request depends only on the request
    and the collection: not on the code that was drawn, the clock, the
    new [_id] or the fate of the mail.  It never carries a token. *)
Theorem challenge_response_reveals_nothing env env' rq (db : Users) :
  response (events (request_challenge cfg env rq db))
  = response (events (request_challenge cfg env' rq db)) /\
  response_token (events (request_challenge cfg env rq db)) = None.
Proof.
  assert (Hshape : forall e, response (events (request_challenge cfg e rq db))
    = match issued_user e rq db with
      | Some _ => Some (200, ok_body "OTP sent successfully.")
      | None => response (events (request_challenge cfg env rq db))
      end /\ response_token (events (request_challenge cfg e rq db)) = None).
  { intros e. destruct (issued_user e rq db) as [u|] eqn:Hi.
    - rewrite (request_challenge_issues cfg _ _ _ _ Hi). unfold response_token.
      cbn [events snd response]. unfold mail_line. destruct (mail_ok e); split; reflexivity.
    - assert (Hn : issued_user env rq db = None).
      { destruct (issued_user env rq db) eqn:Hi'; [|reflexivity].
        destruct (issued_user_any_env env e rq db ltac:(eauto)) as [? ?]. congruence. }
      clear Hi. destruct rq as [nm dob em | em]; cbn [issued_user request_challenge] in *.
      + destruct (db !! em) as [v|] eqn:Hdb.
        * rewrite !(request_signup_otp_existing cfg _ _ _ _ _ _ Hdb). split; reflexivity.
        * assert (Hv : required_ok nm && required_ok (Some em) = false).
          { destruct nm as [n|]; [|reflexivity].
            destruct (required_ok (Some n) && required_ok (Some em)); [discriminate|reflexivity]. }
          rewrite !(request_signup_otp_invalid cfg _ nm dob em db Hdb Hv). split; reflexivity.
      + destruct (db !! em) as [v|] eqn:Hdb; [discriminate|].
        rewrite !(request_otp_unknown cfg _ _ _ Hdb). split; reflexivity. }
  destruct (Hshape env) as [He Ht]. destruct (Hshape env') as [He' _].
  split; [|exact Ht]. rewrite He'.
  destruct (issued_user env' rq db) as [u'|] eqn:Hi'; [|reflexivity].
  rewrite He. destruct (issued_user_any_env env' env rq db ltac:(eauto)) as [u ->].
  reflexivity.
Qed.


(** X7.  A submitted code that is not a string (a number, [null], a
    boolean, an object, or no [otp] field at all) is never accepted,
    whatever the account holds, and the account is left as it is. *)
Theorem non_string_code_rejected k env em code (db : Users) u :
  db !! em = Some u ->
  (forall s, code <> JsString s) ->
  response (events (complete cfg k env em code db))
  = Some (400, msg_body "Invalid or expired OTP.") /\
  final_db (complete cfg k env em code db) = db.
Proof.
  intros Hdb Hns.
  rewrite (complete_rejected cfg _ _ _ _ _ _ Hdb); [split; reflexivity|].
  apply otp_rejected_true. intros (c & e & _ & -> & _). now apply (Hns c).
Qed.

(** X8.  The two completion routes decide alike: on the same request
    they leave the same collection, answer with the same status and, when
    they accept, return the same token; what they write and answer
    differs in the [message] of the response only.  A challenge issued by
    either challenge route can be completed on either completion route. *)
Theorem completion_routes_agree env em code (db : Users) :
  final_db (signup cfg env em code db) = final_db (login cfg env em code db) /\
  status (events (signup cfg env em code db)) = status (events (login cfg env em code db)) /\
  response_token (events (signup cfg env em code db))
  = response_token (events (login cfg env em code db)) /\
  List.map without_message (events (signup cfg env em code db))
  = List.map without_message (events (login cfg env em code db)).
Proof.
  change (signup cfg) with (complete cfg Signup). change (login cfg) with (complete cfg Login).
  destruct (db !! em) as [u|] eqn:Hdb.
  - destruct (otp_rejected u code (now env)) eqn:Hr.
    + rewrite !(complete_rejected cfg _ _ _ _ _ _ Hdb Hr). repeat split.
    + rewrite !(complete_accepted cfg _ _ _ _ _ _ Hdb Hr). repeat split.
  - rewrite !(complete_unknown cfg _ _ _ _ _ Hdb). repeat split.
Qed.

Lemma header_token_three w tok rest :
  no_space w = true -> no_space tok = true ->
  header_token (Some (String.append w (String " " (String.append tok (String " " rest)))))
  = Some tok.
Proof.
  intros Hw Ht. unfold header_token.
  rewrite (split_on_segment _ _ Hw), (split_on_segment _ _ Ht). reflexivity.
Qed.

(** X9.  The guard reads the second segment only: whatever follows a
    further space in the header is ignored. *)
Theorem guard_ignores_later_segments env w tok rest next (db : Users) :
  no_space w = true ->
  no_space tok = true ->
  authMiddleware cfg env
    (Some (String.append w (String " " (String.append tok (String " " rest))))) next db
  = authMiddleware cfg env (Some (String.append w (String " " tok))) next db.
Proof.
  intros Hw Ht. unfold authMiddleware.
  now rewrite (header_token_three _ _ rest Hw Ht), (header_token_segments _ _ Hw Ht).
Qed.

(** X10.  A token that [jwt.verify] refuses (bad signature, expired,
    malformed) is answered 401 "Token is not valid." with the library's
    message, and the protected handler is not entered. *)
Theorem guard_invalid_token env w tok msg next (db : Users) :
  no_space w = true ->
  no_space tok = true ->
  tok <> "" ->
  jwt_verify tok (JWT_SECRET cfg) (now env) = Thrown msg ->
  authMiddleware cfg env (Some (String.append w (String " " tok))) next db
  = (Returned tt, db,
     [Responded 401 (mkBody None "Token is not valid." None (Some msg))]).
Proof.
  intros Hw Ht Hne Hv. unfold authMiddleware.
  rewrite (header_token_segments _ _ Hw Ht).
  destruct tok as [|c tok']; [contradiction|]. rewrite Hv. reflexivity.
Qed.

(** X11.  Two spaces after the scheme word make the second segment
    empty: the request is answered 401 "No token, authorization denied."
    even when a valid token follows. *)
Theorem guard_double_space env w rest next (db : Users) :
  no_space w = true ->
  authMiddleware cfg env (Some (String.append w (String " " (String " " rest)))) next db
  = (Returned tt, db, [Responded 401 (msg_body "No token, authorization denied.")]).
Proof.
  intros Hw. unfold authMiddleware, header_token.
  rewrite (split_on_segment _ _ Hw). reflexivity.
Qed.

(** X12.  The token in the answer of an accepted completion is the one
    signed for the account's [_id]; sent back as [Bearer <token>], and
    verified by the library, it passes the guard with [req.user.id] set
    to that [_id]. *)
Theorem session_token_passes_guard k env em code (db : Users) u env' next (db' : Users) :
  db !! em = Some u ->
  status (events (complete cfg k env em code db)) = Some 200 ->
  no_space (jwt_sign (_id u) (JWT_SECRET cfg) (now env)) = true ->
  jwt_sign (_id u) (JWT_SECRET cfg) (now env) <> "" ->
  jwt_verify (jwt_sign (_id u) (JWT_SECRET cfg) (now env)) (JWT_SECRET cfg) (now env')
  = Returned (Some (mkReqUser (_id u))) ->
  response_token (events (complete cfg k env em code db))
  = Some (jwt_sign (_id u) (JWT_SECRET cfg) (now env)) /\
  authMiddleware cfg env'
    (Some (String.append "Bearer" (String " " (jwt_sign (_id u) (JWT_SECRET cfg) (now env)))))
    next db'
  = next (Some (mkReqUser (_id u))) db'.
Proof.
  intros Hdb Hs Hsp Hne Hv.
  apply (status_accepted_iff cfg k env em code db u Hdb), otp_rejected_false in Hs.
  rewrite (complete_accepted cfg _ _ _ _ _ _ Hdb Hs). split; [reflexivity|].
  unfold authMiddleware. rewrite (header_token_segments "Bearer" _ eq_refl Hsp).
  destruct (jwt_sign (_id u) (JWT_SECRET cfg) (now env)) as [|c t]; [contradiction|].
  rewrite Hv. reflexivity.
Qed.

(** X13.  The mail of a challenge request goes to the address of the
    request and its text ends with the very code that was stored: a
    completion request with the code read from the mail, made within ten
    minutes, is accepted. *)
Theorem mailed_code_is_accepted env rq (db : Users) m :
  keyed_by_email db ->
  In (SendMail m) (events (request_challenge cfg env rq db)) ->
  exists code,
    mail_to m = challenge_email rq /\
    (mail_text m = String.append "Your OTP for notes-app sign up is: " code \/
     mail_text m = String.append "Your OTP for notes-app login is: " code) /\
    forall k env',
      now env' <= now env + 600000 ->
      status (events (complete cfg k env' (challenge_email rq) (JsString code)
                        (final_db (request_challenge cfg env rq db)))) = Some 200.
Proof.
  intros Hk Hin. destruct (mailed_is_issued cfg _ _ _ _ Hin) as [-> [u Hi]].
  exists (generate_otp (random env)). split; [|split].
  - destruct rq; reflexivity.
  - destruct rq; [left | right]; reflexivity.
  - intros k env' Ht. rewrite (request_challenge_issues cfg _ _ _ _ Hi).
    cbn [final_db fst snd]. rewrite (issued_user_email _ _ _ _ Hk Hi).
    apply (status_accepted_iff cfg k env' _ _ _ u (lookup_insert_eq _ _ _)).
    eexists _, _. repeat split; [exact (issued_user_pending _ _ _ _ Hi) | lia].
Qed.

(** X14.  The account exists from the first signup challenge request on,
    before any code has been submitted: a login challenge request for the
    address is served at once and replaces the signup code. *)
Theorem unverified_account_can_login env env' n dob em (db : Users) :
  db !! em = None ->
  n <> "" -> em <> "" ->
  status (events (request_otp cfg env' em
                    (final_db (request_signup_otp cfg env (Some n) dob em db)))) = Some 200 /\
  exists u,
    final_db (request_otp cfg env' em
                (final_db (request_signup_otp cfg env (Some n) dob em db))) !! em = Some u /\
    name u = n /\ email u = em /\
    pending_challenge u = Some (generate_otp (random env'), now env' + 600000).
Proof.
  intros Hdb Hn He.
  assert (Hv : required_ok (Some n) && required_ok (Some em) = true).
  { unfold required_ok, js_not. apply String.eqb_neq in Hn, He. now rewrite Hn, He. }
  rewrite (request_signup_otp_fresh cfg env n dob em db Hdb Hv). cbn [final_db fst snd].
  rewrite (request_otp_known cfg env' em _ _ (lookup_insert_eq _ _ _)).
  cbn [final_db fst snd events email]. split.
  { unfold mail_line. destruct (mail_ok env'); reflexivity. }
  eexists. split; [apply lookup_insert_eq|]. unfold pending_challenge, set_challenge.
  cbn [name email otp otpExpires]. rewrite generate_otp_nonempty. repeat split.
Qed.

End AuthRoutes.

(* ===================================================================== *)
(** ** The protected routes *)
(* ===================================================================== *)

Lemma newer_first_total : Total newer_first.
Proof. intros a b. unfold newer_first. lia. Qed.

Lemma newer_first_transitive : Transitive newer_first.
Proof. intros a b c. unfold newer_first. lia. Qed.

Section ProtectedRoutes.
Context {jwt : JsonWebToken} (cfg : Config) (cast_id : string -> option string).

(** [guard] is the decision [authMiddleware] takes. *)
Lemma authMiddleware_guard env header next (db : Users) :
  authMiddleware cfg env header next db
  = match guard cfg env header with
    | Pass req_user => next req_user db
    | Deny st b => respond st b db
    end.
Proof.
  unfold authMiddleware, guard.
  destruct (header_token header) as [[|c tok]|]; try reflexivity.
  destruct (jwt_verify _ _ _); reflexivity.
Qed.

Lemma find_by_id (db : Users) em u :
  unique_ids db ->
  db !! em = Some u ->
  (snd ∘ snd) <$> list_find (fun p => _id (snd p) = _id u) (map_to_list db) = Some u.
Proof.
  intros Hu Hdb.
  assert (Hin : (em, u) ∈ map_to_list db) by now apply elem_of_map_to_list.
  destruct (list_find_elem_of (fun p : string * User => _id (snd p) = _id u) _ _ Hin eq_refl)
    as [[i [e' u']] Hf].
  rewrite Hf. cbn. f_equal.
  apply list_find_Some in Hf as (Hl & Hid & _). cbn in Hid.
  apply list_elem_of_lookup_2, elem_of_map_to_list in Hl.
  pose proof (Hu _ _ _ _ Hl Hdb Hid) as ->. congruence.
Qed.

Lemma find_by_id_none (db : Users) oid :
  (forall e u, db !! e = Some u -> _id u <> oid) ->
  (snd ∘ snd) <$> list_find (fun p => _id (snd p) = oid) (map_to_list db) = None.
Proof.
  intros Hno. apply fmap_None, list_find_None, Forall_forall.
  intros [e u] Hin. apply elem_of_map_to_list in Hin. now apply (Hno e u).
Qed.

Ltac enter_handler Hg Hne :=
  unfold auth_me, notes_create, notes_all, notes_delete, protected;
  rewrite ?Hg;
  unfold me_handler, create_handler, all_handler, delete_handler, catching, route_bind, route_ret;
  cbn [id];
  rewrite ?(proj2 (String.eqb_neq _ _) Hne).

(** X15.  [GET /api/auth/me] with a token for an existing account (the
    id of the token is cast to the [_id] of the account, as the account's
    own [_id] in any spelling is) answers 200 with that account's [_id],
    [name], [email] and [dateOfBirth] and without [otp] and
    [otpExpires], also while a code is pending; nothing is changed. *)
Theorem me_returns_identity env header w em u uid :
  unique_ids (users w) ->
  users w !! em = Some u ->
  uid <> "" ->
  cast_id uid = Some (_id u) ->
  guard cfg env header = Pass (Some (mkReqUser uid)) ->
  auth_me cfg cast_id env header w
  = (mkReply 200 (UserDoc (mkUser (_id u) (name u) (email u) (dateOfBirth u) None None)), w).
Proof.
  intros Hu Hdb Hne Hc Hg. enter_handler Hg Hne.
  unfold User_findById. rewrite Hc, (find_by_id _ _ _ Hu Hdb). reflexivity.
Qed.

(** X16.  With a token whose id is cast to an [ObjectId] that is the
    [_id] of no account, [GET /api/auth/me] answers 404 "User not
    found." and changes nothing. *)
Theorem me_unknown_account env header w uid oid :
  guard cfg env header = Pass (Some (mkReqUser uid)) ->
  uid <> "" ->
  cast_id uid = Some oid ->
  (forall e u, users w !! e = Some u -> _id u <> oid) ->
  auth_me cfg cast_id env header w = (reply_message 404 "User not found.", w).
Proof.
  intros Hg Hne Hc Hno. enter_handler Hg Hne.
  unfold User_findById. rewrite Hc, (find_by_id_none _ _ Hno). reflexivity.
Qed.

(** X17.  A token that passes the guard but carries no user, or an empty
    id, is refused by every protected route with 401 "User ID not found
    in token."; nothing is read or changed. *)
Theorem anonymous_token_refused env header ru w ttl cnt nid :
  guard cfg env header = Pass ru ->
  no_user_id ru = true ->
  auth_me cfg cast_id env header w = (reply_message 401 "User ID not found in token.", w) /\
  notes_create cfg cast_id env header ttl cnt w
  = (reply_message 401 "User ID not found in token.", w) /\
  notes_all cfg cast_id env header w
  = (reply_message 401 "User ID not found in token.", w) /\
  notes_delete cfg cast_id env header nid w
  = (reply_message 401 "User ID not found in token.", w).
Proof.
  intros Hg Hno.
  unfold auth_me, notes_create, notes_all, notes_delete, protected. rewrite Hg.
  unfold me_handler, create_handler, all_handler, delete_handler, catching.
  destruct ru as [r|]; cbn [no_user_id] in Hno; [rewrite Hno|]; repeat split.
Qed.

Lemma create_handler_stores env tl ct uid owner w :
  uid <> "" -> cast_id uid = Some owner -> tl <> "" -> ct <> "" ->
  notes w !! new_id env = None ->
  create_handler cast_id env (Some tl) (Some ct) (Some (mkReqUser uid)) w
  = (mkReply 201 (NoteDoc (new_id env) (mkNote tl ct owner (now env))),
     mkWorld (users w) (<[new_id env := mkNote tl ct owner (now env)]> (notes w))).
Proof.
  intros Hne Hc Ht Hct Hfresh.
  unfold create_handler, catching, route_bind, route_ret, Note_create, required_ok, js_not.
  cbn [id]. apply String.eqb_neq in Hne, Ht, Hct. rewrite Hne, Ht, Hct, Hc. cbn [negb andb].
  rewrite Hfresh. reflexivity.
Qed.

Lemma all_handler_run uid owner w :
  uid <> "" -> cast_id uid = Some owner ->
  all_handler cast_id (Some (mkReqUser uid)) w
  = (mkReply 200 (NoteList (merge_sort newer_first
                             (filter (fun p : string * Note => user (snd p) = owner)
                                (map_to_list (notes w))))), w).
Proof.
  intros Hne Hc. unfold all_handler, catching, route_bind, route_ret, Note_find_sorted.
  cbn [id]. apply String.eqb_neq in Hne. rewrite Hne, Hc. reflexivity.
Qed.

Lemma listed_iff owner (ns : Notes) nid n :
  (nid, n) ∈ merge_sort newer_first
               (filter (fun p : string * Note => user (snd p) = owner) (map_to_list ns))
  <-> ns !! nid = Some n /\ user n = owner.
Proof.
  rewrite merge_sort_Permutation, list_elem_of_filter, elem_of_map_to_list. cbn. tauto.
Qed.

(** X18.  [GET /api/notes/all] answers 200 with exactly the notes whose
    owner is the [ObjectId] the id of the token is cast to, each once,
    newest first, and changes nothing. *)
Theorem notes_all_own_sorted env header w uid owner :
  guard cfg env header = Pass (Some (mkReqUser uid)) ->
  uid <> "" ->
  cast_id uid = Some owner ->
  exists l,
    notes_all cfg cast_id env header w = (mkReply 200 (NoteList l), w) /\
    (forall nid n, (nid, n) ∈ l <-> notes w !! nid = Some n /\ user n = owner) /\
    StronglySorted newer_first l /\
    NoDup l.
Proof.
  intros Hg Hne Hc. eexists. split; [|split; [|split]].
  - unfold notes_all, protected. rewrite Hg. exact (all_handler_run uid owner w Hne Hc).
  - intros nid n. apply listed_iff.
  - apply StronglySorted_merge_sort;
      [apply newer_first_transitive | apply newer_first_total].
  - rewrite merge_sort_Permutation. apply NoDup_filter, NoDup_map_to_list.
Qed.

(** X19.  [POST /api/notes/create] with a title and a content stores the
    note under the new [_id], with the [ObjectId] of the caller as owner
    and the time of the request as [createdAt], and answers 201 with it.
    The note is then in the list of every token id that is cast to the
    same [ObjectId] and in the list of no other; the accounts are
    untouched. *)
Theorem note_create_then_listed env header w uid owner tl ct :
  guard cfg env header = Pass (Some (mkReqUser uid)) ->
  uid <> "" -> cast_id uid = Some owner ->
  tl <> "" -> ct <> "" ->
  notes w !! new_id env = None ->
  let note := mkNote tl ct owner (now env) in
  fst (notes_create cfg cast_id env header (Some tl) (Some ct) w)
  = mkReply 201 (NoteDoc (new_id env) note) /\
  users (snd (notes_create cfg cast_id env header (Some tl) (Some ct) w)) = users w /\
  forall uid' owner',
    uid' <> "" -> cast_id uid' = Some owner' ->
    exists l,
      fst (all_handler cast_id (Some (mkReqUser uid'))
             (snd (notes_create cfg cast_id env header (Some tl) (Some ct) w)))
      = mkReply 200 (NoteList l) /\
      ((new_id env, note) ∈ l <-> owner' = owner).
Proof.
  intros Hg Hne Hc Ht Hct Hfresh note.
  unfold notes_create, protected. rewrite Hg.
  rewrite (create_handler_stores env tl ct uid owner w Hne Hc Ht Hct Hfresh). cbn [fst snd users].
  repeat split. intros uid' owner' Hne' Hc'. rewrite (all_handler_run uid' owner' _ Hne' Hc').
  eexists. split; [reflexivity|]. cbn [notes]. rewrite listed_iff, lookup_insert_eq.
  subst note. cbn [user]. split; [intros [_ ->]; reflexivity | intros ->; split; reflexivity].
Qed.

(** X20.  [POST /api/notes/create] without a title or without a content
    (absent or empty) fails the schema validation: the answer is 500
    "Server error." and nothing is stored. *)
Theorem note_create_invalid env header w uid ttl cnt :
  guard cfg env header = Pass (Some (mkReqUser uid)) ->
  uid <> "" ->
  ttl = None \/ ttl = Some "" \/ cnt = None \/ cnt = Some "" ->
  exists msg,
    notes_create cfg cast_id env header ttl cnt w = (reply_server_error msg, w).
Proof.
  intros Hg Hne Hbad. exists "Note validation failed".
  unfold notes_create, protected. rewrite Hg.
  unfold create_handler, catching, route_bind, Note_create. cbn [id].
  apply String.eqb_neq in Hne. rewrite Hne.
  destruct ttl as [tl|], cnt as [ct|], (cast_id uid) as [owner|]; try reflexivity.
  assert (Hv : required_ok (Some tl) && required_ok (Some ct) = false).
  { destruct Hbad as [[=] | [[= ->] | [[=] | [= ->]]]]; [reflexivity|]. apply andb_false_r. }
  rewrite Hv. reflexivity.
Qed.

Lemma delete_handler_run uid owner nid key w :
  uid <> "" -> cast_id uid = Some owner -> cast_id nid = Some key ->
  delete_handler cast_id nid (Some (mkReqUser uid)) w
  = match notes w !! key with
    | Some n =>
        if String.eqb (user n) owner
        then (reply_message 200 "Note deleted successfully.",
              mkWorld (users w) (delete key (notes w)))
        else (reply_message 404 "Note not found or you are not the owner.", w)
    | None => (reply_message 404 "Note not found or you are not the owner.", w)
    end.
Proof.
  intros Hne Hc Hcn.
  unfold delete_handler, catching, route_bind, route_ret, Note_findOneAndDelete.
  cbn [id]. apply String.eqb_neq in Hne. rewrite Hne, Hc, Hcn.
  destruct (notes w !! key) as [n|]; [|reflexivity].
  destruct (String.eqb (user n) owner); reflexivity.
Qed.

(** X21.  [DELETE /api/notes/delete/:id] answers 404 "Note not found or
    you are not the owner." and deletes nothing when the [ObjectId] the
    [:id] is cast to is the [_id] of no note, or of a note whose owner is
    not the [ObjectId] the id of the token is cast to. *)
Theorem note_delete_refused env header w uid owner nid key :
  guard cfg env header = Pass (Some (mkReqUser uid)) ->
  uid <> "" -> cast_id uid = Some owner -> cast_id nid = Some key ->
  notes w !! key = None \/ (exists n, notes w !! key = Some n /\ user n <> owner) ->
  notes_delete cfg cast_id env header nid w
  = (reply_message 404 "Note not found or you are not the owner.", w).
Proof.
  intros Hg Hne Hc Hcn Hcase. unfold notes_delete, protected. rewrite Hg.
  rewrite (delete_handler_run uid owner nid key w Hne Hc Hcn).
  destruct Hcase as [-> | (n & -> & Hother)]; [reflexivity|].
  apply String.eqb_neq in Hother. rewrite Hother. reflexivity.
Qed.

(** X22.  [DELETE /api/notes/delete/:id] for a note of the caller (the
    [:id] is cast to the [_id] of the note and the id of the token to its
    owner, as the stored ids in any spelling are) answers 200, removes
    that note and no other, and leaves the accounts untouched. *)
Theorem note_delete_own env header w uid owner nid key n :
  guard cfg env header = Pass (Some (mkReqUser uid)) ->
  uid <> "" -> cast_id uid = Some owner -> cast_id nid = Some key ->
  notes w !! key = Some n ->
  user n = owner ->
  fst (notes_delete cfg cast_id env header nid w)
  = reply_message 200 "Note deleted successfully." /\
  notes (snd (notes_delete cfg cast_id env header nid w)) !! key = None /\
  (forall key', key' <> key ->
     notes (snd (notes_delete cfg cast_id env header nid w)) !! key' = notes w !! key') /\
  users (snd (notes_delete cfg cast_id env header nid w)) = users w.
Proof.
  intros Hg Hne Hc Hcn Hn Hown. unfold notes_delete, protected. rewrite Hg.
  rewrite (delete_handler_run uid owner nid key w Hne Hc Hcn), Hn.
  rewrite (proj2 (String.eqb_eq _ _) Hown). cbn [fst snd notes users].
  repeat split; [apply lookup_delete_eq|].
  intros key' Hd. now apply lookup_delete_ne.
Qed.

(** X23.  Creating a note and then deleting it by its new [_id], as the
    same user, gives back both collections as they were. *)
Theorem note_create_delete_round_trip env env' header header' w uid uid' owner nid tl ct :
  guard cfg env header = Pass (Some (mkReqUser uid)) ->
  guard cfg env' header' = Pass (Some (mkReqUser uid')) ->
  uid <> "" -> cast_id uid = Some owner ->
  uid' <> "" -> cast_id uid' = Some owner ->
  cast_id nid = Some (new_id env) ->
  tl <> "" -> ct <> "" ->
  notes w !! new_id env = None ->
  snd (notes_delete cfg cast_id env' header' nid
         (snd (notes_create cfg cast_id env header (Some tl) (Some ct) w)))
  = w.
Proof.
  intros Hg Hg' Hne Hc Hne' Hc' Hcn Ht Hct Hfresh.
  unfold notes_create, notes_delete, protected. rewrite Hg, Hg'.
  rewrite (create_handler_stores env tl ct uid owner w Hne Hc Ht Hct Hfresh). cbn [snd].
  rewrite (delete_handler_run uid' owner nid _ _ Hne' Hc' Hcn). cbn [notes users].
  rewrite lookup_insert_eq. cbn [user]. rewrite String.eqb_refl. cbn [snd].
  rewrite (delete_insert_id _ _ _ Hfresh). destruct w; reflexivity.
Qed.

Lemma note_handler_users rq ru w :
  users (snd (note_handler cast_id rq ru w)) = users w.
Proof.
  destruct rq as [env ttl cnt | | nid]; cbn [note_handler];
    unfold create_handler, all_handler, delete_handler, catching, route_bind, route_ret.
  - destruct ru as [r|]; [|reflexivity]. destruct (String.eqb (id r) ""); [reflexivity|].
    unfold Note_create. destruct ttl, cnt, (cast_id (id r)); try reflexivity.
    destruct (_ && _); [|reflexivity]. destruct (notes w !! new_id env); reflexivity.
  - destruct ru as [r|]; [|reflexivity]. destruct (String.eqb (id r) ""); [reflexivity|].
    unfold Note_find_sorted. destruct (cast_id (id r)); reflexivity.
  - destruct ru as [r|]; [|reflexivity]. destruct (String.eqb (id r) ""); [reflexivity|].
    unfold Note_findOneAndDelete.
    destruct (cast_id nid) as [key|]; [|reflexivity].
    destruct (cast_id (id r)) as [owner|]; [|reflexivity].
    destruct (notes w !! key) as [n|]; [|reflexivity].
    destruct (String.eqb (user n) owner); reflexivity.
Qed.

Lemma note_handler_isolated rq ru w owner :
  owner_id cast_id ru <> Some owner ->
  notes_of owner (notes (snd (note_handler cast_id rq ru w))) = notes_of owner (notes w).
Proof.
  intros Hru.
  destruct ru as [[uid']|]; [|destruct rq; reflexivity].
  cbn [owner_id id] in Hru.
  destruct rq as [env ttl cnt | | nid]; cbn [note_handler];
    unfold create_handler, all_handler, delete_handler, catching, route_bind, route_ret;
    cbn [id]; destruct (String.eqb uid' ""); try reflexivity.
  - unfold Note_create. destruct ttl as [tl|], cnt as [ct|]; try reflexivity.
    destruct (cast_id uid') as [owner'|]; [|reflexivity].
    destruct (_ && _); [|reflexivity].
    destruct (notes w !! new_id env) eqn:Hfresh; [reflexivity|]. cbn [snd notes].
    unfold notes_of. apply map_filter_insert_not'; [cbn; congruence|].
    intros y Hy. congruence.
  - unfold Note_find_sorted. destruct (cast_id uid'); reflexivity.
  - unfold Note_findOneAndDelete.
    destruct (cast_id nid) as [key|]; [|reflexivity].
    destruct (cast_id uid') as [owner'|]; [|reflexivity].
    destruct (notes w !! key) as [n|] eqn:Hn; [|reflexivity].
    destruct (String.eqb_spec (user n) owner') as [Hown|]; [|reflexivity]. cbn [snd notes].
    unfold notes_of. apply map_filter_delete_not. intros y Hy. cbn. congruence.
Qed.

(** X24.  Whatever notes requests are served under tokens whose id is
    not cast to the [ObjectId] of an account (tokens of other accounts,
    tokens without a user, ids that cannot be cast), the notes that
    account owns stay exactly as they are: no route changes or removes
    another account's note. *)
Theorem other_users_notes_untouched owner l : forall w,
  Forall (fun p => owner_id cast_id (fst p) <> Some owner) l ->
  notes_of owner (notes (serve_notes cast_id l w)) = notes_of owner (notes w).
Proof.
  induction l as [|[ru rq] rest IH]; intros w Hall; cbn [serve_notes]; [reflexivity|].
  apply Forall_cons in Hall as [Hru Hrest]. cbn [fst] in Hru.
  rewrite (IH _ Hrest). now apply note_handler_isolated.
Qed.

(** X25.  The notes routes never write to the [User] collection, through
    any sequence of requests. *)
Theorem notes_routes_leave_accounts l : forall w,
  users (serve_notes cast_id l w) = users w.
Proof.
  induction l as [|[ru rq] rest IH]; intros w; cbn [serve_notes]; [reflexivity|].
  rewrite IH. apply note_handler_users.
Qed.

(** X26.  [GET /api/auth/me] and [GET /api/notes/all] change neither
    collection, whatever the header and whatever they answer. *)
Theorem read_routes_change_nothing env header w :
  snd (auth_me cfg cast_id env header w) = w /\
  snd (notes_all cfg cast_id env header w) = w.
Proof.
  unfold auth_me, notes_all, protected.
  destruct (guard cfg env header) as [ru | st b]; [|split; reflexivity].
  unfold me_handler, all_handler, catching, route_bind, route_ret.
  destruct ru as [r|]; [|split; reflexivity].
  destruct (String.eqb (id r) ""); [split; reflexivity|].
  unfold User_findById, Note_find_sorted. destruct (cast_id (id r)); [|split; reflexivity].
  split; [|reflexivity].
  destruct (_ <$> list_find _ _); reflexivity.
Qed.

End ProtectedRoutes.

(* ===================================================================== *)
(** ** The mailer and the challenge fields *)
(* ===================================================================== *)

Section Mailer.
Context {jwt : JsonWebToken} (cfg : Config).

(** X27.  [sendEmail] never throws and never touches the collection:
    it hands one message to the transport, from [EMAIL_USER] to the given
    address with the given subject and text, and then writes one console
    line: the log line when the transport delivered the message, the
    error line when it failed. *)
Theorem sendEmail_never_throws env to subject text (db : Users) :
  exists line,
    sendEmail cfg env to subject text db
    = (Returned tt, db,
       [SendMail (mkMail (env_EMAIL_USER cfg) to subject text); line]) /\
    line = (if mail_ok env
            then ConsoleLog (String.append "Email sent to " to)
            else ConsoleError (String.append "Error sending email to "
                                 (String.append to ":"))).
Proof.
  unfold sendEmail, transporter_sendMail, try_catch, bind, emit, ret, throw.
  destruct (mail_ok env); eexists; split; reflexivity.
Qed.

Lemma route_writes_paired r (db : Users) e u' :
  final_db (route cfg r db) !! e = Some u' ->
  db !! e = Some u' \/ (otp u' = None <-> otpExpires u' = None).
Proof.
  destruct r as [env rq | k env em code]; cbn [route].
  - destruct (issued_user env rq db) as [u|] eqn:Hi.
    + rewrite (request_challenge_issues cfg _ _ _ _ Hi). cbn [final_db fst snd].
      rewrite lookup_insert. case_decide; [|auto]. intros [= <-]. right.
      destruct (issued_user_challenge _ _ _ _ Hi) as [-> ->]. split; discriminate.
    + destruct (request_challenge_refuses cfg _ _ _ Hi) as (st & b & -> & _). auto.
  - destruct (db !! em) as [u|] eqn:Hdb.
    + destruct (otp_rejected u code (now env)) eqn:Hr.
      * rewrite (complete_rejected cfg _ _ _ _ _ _ Hdb Hr). auto.
      * rewrite (complete_accepted cfg _ _ _ _ _ _ Hdb Hr). cbn [final_db fst snd].
        rewrite lookup_insert. case_decide; [|auto]. intros [= <-]. right.
        split; reflexivity.
    + rewrite (complete_unknown cfg _ _ _ _ _ Hdb). auto.
Qed.

(** X28.  The routes write and clear the code and its expiry together:
    through any sequence of requests, no account ever holds a code
    without an expiry or an expiry without a code. *)
Theorem challenge_fields_stay_paired l : forall (db : Users),
  challenge_paired db -> challenge_paired (fst (serve cfg l db)).
Proof.
  induction l as [|r rest IH]; intros db Hp; cbn [serve]; [exact Hp|].
  assert (Hp1 : challenge_paired (final_db (route cfg r db))).
  { intros e u' Hl. destruct (route_writes_paired r db e u' Hl) as [Hold|Hnew];
      [exact (Hp _ _ Hold) | exact Hnew]. }
  specialize (IH _ Hp1).
  destruct (serve cfg rest (final_db (route cfg r db))) as [db2 rs]. exact IH.
Qed.

End Mailer.

(* ===================================================================== *)
(** ** The properties on concrete runs *)
(* ===================================================================== *)

Import Demo.

Lemma db_alice_keyed : keyed_by_email Demo.db_alice.
Proof.
  intros e u H. unfold Demo.db_alice in H.
  apply lookup_singleton_Some in H as [<- <-]. reflexivity.
Qed.

(** The first signup request of an address creates the account with its challenge. *)
Example first_signup_request :
  request_challenge Demo.cfg Demo.env0 Demo.signup_alice ∅
  = (Returned tt, Demo.db_alice,
     [Saved Demo.alice;
      SendMail (mkMail (Some "notes@example.com") "a@x.com" "Your Sign-up OTP"
                  "Your OTP for notes-app sign up is: 550000");
      ConsoleLog "Email sent to a@x.com";
      Responded 200 (ok_body "OTP sent successfully.")]).
Proof. vm_compute. reflexivity. Qed.

(** C1 fails as stated: at the very instant of expiry a matching code is
    accepted by both completion routes, although the clock is not
    strictly before the stored expiry. *)
Lemma strict_expiry_counterexample :
  otpExpires Demo.alice = Some (now Demo.env_at_expiry) /\
  status (events (complete Demo.cfg Signup Demo.env_at_expiry "a@x.com"
                    (JsString "550000") Demo.db_alice)) = Some 200 /\
  status (events (complete Demo.cfg Login Demo.env_at_expiry "a@x.com"
                    (JsString "550000") Demo.db_alice)) = Some 200 /\
  ~ spec_accepts_strict Demo.alice (JsString "550000") (now Demo.env_at_expiry).
Proof.
  repeat split; try reflexivity.
  intros (c & e & Hp & _ & Hlt).
  change (pending_challenge Demo.alice) with (Some ("550000", 600000)) in Hp.
  injection Hp as _ <-. cbn in Hlt. lia.
Qed.

(** One millisecond later the same code is refused. *)
Example expired_code_refused :
  response (events (complete Demo.cfg Login Demo.env_late "a@x.com"
                      (JsString "550000") Demo.db_alice))
  = Some (400, msg_body "Invalid or expired OTP.").
Proof. reflexivity. Qed.

Lemma validation_accepts_iff_witness :
  Demo.db_alice !! "a@x.com" = Some Demo.alice /\
  ((status (events (complete Demo.cfg Login Demo.env1 "a@x.com" (JsString "550000")
                      Demo.db_alice)) = Some 200
    <-> accepts Demo.alice (JsString "550000") (now Demo.env1)) /\
   (~ accepts Demo.alice (JsString "550000") (now Demo.env1) ->
    response (events (complete Demo.cfg Login Demo.env1 "a@x.com" (JsString "550000")
                        Demo.db_alice))
    = Some (400, msg_body "Invalid or expired OTP."))).
Proof.
  split; [reflexivity|].
  apply (validation_accepts_iff Demo.cfg Login Demo.env1 "a@x.com" (JsString "550000")
           Demo.db_alice Demo.alice).
  reflexivity.
Defined.

(** C2 on the code: after the first signup request has created the
    account, a second signup request for the same address is refused with
    400, issues nothing and leaves the first code in force; the code the
    second request would have drawn is never stored. *)
Theorem signup_resend_refused :
  final_db (request_challenge Demo.cfg Demo.env0 Demo.signup_alice ∅) = Demo.db_alice /\
  request_challenge Demo.cfg Demo.env1 Demo.signup_alice Demo.db_alice
  = (Returned tt, Demo.db_alice,
     [Responded 400 (msg_body "User with this email already exists.")]) /\
  generate_otp (random Demo.env1) = "325000" /\
  status (events (complete Demo.cfg Signup Demo.env1 "a@x.com" (JsString "550000")
                    Demo.db_alice)) = Some 200 /\
  response (events (complete Demo.cfg Signup Demo.env1 "a@x.com" (JsString "325000")
                      Demo.db_alice))
  = Some (400, msg_body "Invalid or expired OTP.").
Proof. repeat split; vm_compute; reflexivity. Qed.

(** The same resend through the login route does replace the code. *)
Example login_resend_replaces :
  final_db (request_challenge Demo.cfg Demo.env1 (LoginChallenge "a@x.com") Demo.db_alice)
    !! "a@x.com"
  = Some (mkUser "65f0" "Alice" "a@x.com" None (Some "325000") (Some 601000)).
Proof. vm_compute. reflexivity. Qed.

(** C3 fails as stated: with the same collection, clock and code, the
    answer to a login completion for an unknown address differs from the
    answer for a known address with a wrong code. *)
Lemma login_failures_distinguishable :
  Demo.db_alice !! "nobody@x.com" = None /\
  status (events (login Demo.cfg Demo.env1 "nobody@x.com" (JsString "000000") Demo.db_alice))
  = Some 400 /\
  status (events (login Demo.cfg Demo.env1 "a@x.com" (JsString "000000") Demo.db_alice))
  = Some 400 /\
  response (events (login Demo.cfg Demo.env1 "nobody@x.com" (JsString "000000") Demo.db_alice))
  <> response (events (login Demo.cfg Demo.env1 "a@x.com" (JsString "000000") Demo.db_alice)).
Proof. repeat split; try reflexivity. vm_compute. discriminate. Qed.

Lemma login_failure_responses_witness :
  response (events (login Demo.cfg Demo.env1 "nobody@x.com" (JsString "000000") Demo.db_alice))
  = Some (400, msg_body "Invalid credentials.") /\
  response (events (login Demo.cfg Demo.env1 "a@x.com" (JsString "000000") Demo.db_alice))
  = Some (400, msg_body "Invalid or expired OTP.") /\
  status (events (login Demo.cfg Demo.env1 "nobody@x.com" (JsString "000000") Demo.db_alice))
  = status (events (login Demo.cfg Demo.env1 "a@x.com" (JsString "000000") Demo.db_alice)) /\
  response (events (login Demo.cfg Demo.env1 "nobody@x.com" (JsString "000000") Demo.db_alice))
  <> response (events (login Demo.cfg Demo.env1 "a@x.com" (JsString "000000") Demo.db_alice)).
Proof.
  apply (login_failure_responses Demo.cfg Demo.env1 Demo.env1 "nobody@x.com" "a@x.com"
           (JsString "000000") (JsString "000000") Demo.db_alice Demo.db_alice Demo.alice).
  - reflexivity.
  - reflexivity.
  - intros (c & e & Hp & Hc & _).
    change (pending_challenge Demo.alice) with (Some ("550000", 600000)) in Hp.
    injection Hp as <- _. discriminate Hc.
Defined.

Lemma accepted_challenge_cleared_until_reissued_witness :
  exists u tok,
    Demo.db_alice !! "a@x.com" = Some u /\
    events (complete Demo.cfg Login Demo.env1 "a@x.com" (JsString "550000") Demo.db_alice)
    = [Saved (clear_challenge u); Responded 200 (token_body (success_message Login) tok)] /\
    final_db (complete Demo.cfg Login Demo.env1 "a@x.com" (JsString "550000") Demo.db_alice)
      !! "a@x.com" = Some (clear_challenge u) /\
    otp (clear_challenge u) = None /\ otpExpires (clear_challenge u) = None /\
    (forall l,
       forallb (fun r => negb (reissues "a@x.com" r)) l = true ->
       Forall2 (fun r resp =>
                  completion_for "a@x.com" r = true ->
                  resp = Some (400, msg_body "Invalid or expired OTP."))
               l (snd (serve Demo.cfg l
                         (final_db (complete Demo.cfg Login Demo.env1 "a@x.com"
                                      (JsString "550000") Demo.db_alice))))) /\
    (forall l k' env' code',
       status (events (complete Demo.cfg k' env' "a@x.com" code'
                         (fst (serve Demo.cfg l
                                 (final_db (complete Demo.cfg Login Demo.env1 "a@x.com"
                                              (JsString "550000") Demo.db_alice))))))
       = Some 200 ->
       exists l1 env2 l2,
         l = (l1 ++ Challenge env2 (LoginChallenge "a@x.com") :: l2)%list /\
         forallb (fun r => negb (reissues "a@x.com" r)) l2 = true /\
         code' = JsString (generate_otp (random env2)) /\
         now env' <= now env2 + 600000) /\
    (forall l env2 k' env' code',
       status (events (complete Demo.cfg k' env' "a@x.com" code'
                         (fst (serve Demo.cfg
                                 (l ++ [Challenge env2 (LoginChallenge "a@x.com")])
                                 (final_db (complete Demo.cfg Login Demo.env1 "a@x.com"
                                              (JsString "550000") Demo.db_alice))))))
       = Some 200
       <-> code' = JsString (generate_otp (random env2)) /\ now env' <= now env2 + 600000).
Proof.
  apply (accepted_challenge_cleared_until_reissued Demo.cfg Login Demo.env1 "a@x.com"
           (JsString "550000") Demo.db_alice).
  - exact db_alice_keyed.
  - reflexivity.
Defined.

(** C4 fails as stated: the code "550000" is accepted for the account,
    and a later submission of the same code to the same account is
    accepted a second time, because the login challenge requested in
    between has drawn the same six digits. *)
Lemma replay_accepted_after_same_draw :
  pending_challenge Demo.alice = Some ("550000", 600000) /\
  generate_otp (random Demo.env2) = "550000" /\
  List.map (option_map fst)
    (snd (serve Demo.cfg
            [Complete Login Demo.env1 "a@x.com" (JsString "550000");
             Challenge Demo.env2 (LoginChallenge "a@x.com");
             Complete Login Demo.env3 "a@x.com" (JsString "550000")]
            Demo.db_alice))
  = [Some 200; Some 200; Some 200].
Proof. repeat split; vm_compute; reflexivity. Qed.

(** With any other draw the consumed code stays refused after the new
    challenge. *)
Example replay_refused_after_other_draw :
  generate_otp (random Demo.env1) = "325000" /\
  List.map (option_map fst)
    (snd (serve Demo.cfg
            [Complete Login Demo.env1 "a@x.com" (JsString "550000");
             Challenge Demo.env1 (LoginChallenge "a@x.com");
             Complete Login Demo.env3 "a@x.com" (JsString "550000")]
            Demo.db_alice))
  = [Some 200; Some 200; Some 400].
Proof. repeat split; vm_compute; reflexivity. Qed.

(** The replay itself: the code that was just accepted is refused. *)
Example replay_refused :
  response (events (complete Demo.cfg Login Demo.env1 "a@x.com" (JsString "550000")
                      (final_db (complete Demo.cfg Login Demo.env1 "a@x.com"
                                   (JsString "550000") Demo.db_alice))))
  = Some (400, msg_body "Invalid or expired OTP.").
Proof. vm_compute. reflexivity. Qed.

Lemma signup_request_existing_account_witness :
  Demo.db_alice !! "a@x.com" = Some Demo.alice /\
  (events (request_signup_otp Demo.cfg Demo.env1 (Some "Alice") None "a@x.com" Demo.db_alice)
   = [Responded 400 (msg_body "User with this email already exists.")] /\
   final_db (request_signup_otp Demo.cfg Demo.env1 (Some "Alice") None "a@x.com" Demo.db_alice)
   = Demo.db_alice /\
   final_db (request_signup_otp Demo.cfg Demo.env1 (Some "Alice") None "a@x.com" Demo.db_alice)
     !! "a@x.com" = Some Demo.alice /\
   (forall v, ~ In (Saved v)
      (events (request_signup_otp Demo.cfg Demo.env1 (Some "Alice") None "a@x.com"
                 Demo.db_alice))) /\
   (forall m, ~ In (SendMail m)
      (events (request_signup_otp Demo.cfg Demo.env1 (Some "Alice") None "a@x.com"
                 Demo.db_alice)))).
Proof.
  split; [reflexivity|].
  apply (signup_request_existing_account Demo.cfg Demo.env1 (Some "Alice") None "a@x.com"
           Demo.db_alice Demo.alice).
  reflexivity.
Defined.

Lemma rejection_leaves_challenge_witness :
  final_db (complete Demo.cfg Signup Demo.env1 "a@x.com" (JsString "000000") Demo.db_alice)
  = Demo.db_alice /\
  (forall v, ~ In (Saved v)
     (events (complete Demo.cfg Signup Demo.env1 "a@x.com" (JsString "000000") Demo.db_alice))) /\
  (forall u c e k' env',
      Demo.db_alice !! "a@x.com" = Some u -> pending_challenge u = Some (c, e) ->
      now env' <= e ->
      status (events (complete Demo.cfg k' env' "a@x.com" (JsString c)
                        (final_db (complete Demo.cfg Signup Demo.env1 "a@x.com"
                                     (JsString "000000") Demo.db_alice)))) = Some 200).
Proof.
  apply (rejection_leaves_challenge Demo.cfg Signup Demo.env1 "a@x.com" (JsString "000000")
           Demo.db_alice).
  vm_compute. discriminate.
Defined.

Lemma issued_challenge_six_digits_ten_minutes_witness :
  Binary64.unit_interval (random Demo.env0) = true /\
  exists c code,
    100000 <= c <= 999999 /\
    otp Demo.alice = Some code /\ String.length code = 6%nat /\
    decimal_value code = Some c /\
    otpExpires Demo.alice = Some (now Demo.env0 + 600000) /\
    final_db (request_challenge Demo.cfg Demo.env0 Demo.signup_alice ∅)
      !! email Demo.alice = Some Demo.alice.
Proof.
  split; [vm_compute; reflexivity|].
  apply (issued_challenge_six_digits_ten_minutes Demo.cfg Demo.env0 Demo.signup_alice ∅
           Demo.alice).
  - vm_compute. reflexivity.
  - left. vm_compute. reflexivity.
Defined.

Lemma mail_failure_keeps_challenge_witness :
  mail_ok Demo.env0_mail_down = false /\
  exists u,
    events (request_challenge Demo.cfg Demo.env0_mail_down Demo.signup_alice ∅)
    = [Saved u; SendMail (challenge_mail Demo.cfg Demo.env0_mail_down Demo.signup_alice);
       ConsoleError (String.append "Error sending email to "
                       (String.append (challenge_email Demo.signup_alice) ":"));
       Responded 200 (ok_body "OTP sent successfully.")] /\
    final_db (request_challenge Demo.cfg Demo.env0_mail_down Demo.signup_alice ∅)
      !! challenge_email Demo.signup_alice = Some u /\
    pending_challenge u
    = Some (generate_otp (random Demo.env0_mail_down), now Demo.env0_mail_down + 600000) /\
    forall k env',
      now env' <= now Demo.env0_mail_down + 600000 ->
      status (events (complete Demo.cfg k env' (challenge_email Demo.signup_alice)
                        (JsString (generate_otp (random Demo.env0_mail_down)))
                        (final_db (request_challenge Demo.cfg Demo.env0_mail_down
                                     Demo.signup_alice ∅)))) = Some 200.
Proof.
  split; [reflexivity|].
  apply (mail_failure_keeps_challenge Demo.cfg Demo.env0_mail_down Demo.signup_alice ∅
           (challenge_mail Demo.cfg Demo.env0_mail_down Demo.signup_alice)).
  - exact keyed_by_email_empty.
  - reflexivity.
  - right. left. vm_compute. reflexivity.
Defined.

Lemma login_request_unknown_account_witness :
  Demo.db_alice !! "nobody@x.com" = None /\
  (events (request_otp Demo.cfg Demo.env1 "nobody@x.com" Demo.db_alice)
   = [Responded 404 (msg_body "User not found. Please sign up first.")] /\
   final_db (request_otp Demo.cfg Demo.env1 "nobody@x.com" Demo.db_alice) = Demo.db_alice /\
   (forall v, ~ In (Saved v) (events (request_otp Demo.cfg Demo.env1 "nobody@x.com" Demo.db_alice))) /\
   (forall m, ~ In (SendMail m) (events (request_otp Demo.cfg Demo.env1 "nobody@x.com" Demo.db_alice)))).
Proof.
  split; [reflexivity|].
  apply (login_request_unknown_account Demo.cfg Demo.env1 "nobody@x.com" Demo.db_alice).
  reflexivity.
Defined.

Lemma guard_takes_second_segment_witness :
  authMiddleware Demo.cfg Demo.env1 (Some "Basic tok.65f0") Demo.whoami Demo.db_alice
  = Demo.whoami (Some (mkReqUser "65f0")) Demo.db_alice /\
  authMiddleware Demo.cfg Demo.env1 None Demo.whoami Demo.db_alice
  = (Returned tt, Demo.db_alice,
     [Responded 401 (msg_body "No token, authorization denied.")]) /\
  authMiddleware Demo.cfg Demo.env1 (Some "Basic") Demo.whoami Demo.db_alice
  = (Returned tt, Demo.db_alice,
     [Responded 401 (msg_body "No token, authorization denied.")]).
Proof.
  apply (guard_takes_second_segment Demo.cfg Demo.env1 "Basic" "tok.65f0"
           (Some (mkReqUser "65f0")) Demo.whoami Demo.db_alice).
  - reflexivity.
  - reflexivity.
  - discriminate.
  - reflexivity.
Defined.

(* ===================================================================== *)
(** ** The further properties on concrete runs *)
(* ===================================================================== *)

Lemma signup_request_invalid_fields_witness :
  exists msg,
    events (request_signup_otp Demo.cfg Demo.env0 (Some "") None "c@x.com" Demo.db_alice)
    = [Responded 500 (server_error msg)] /\
    final_db (request_signup_otp Demo.cfg Demo.env0 (Some "") None "c@x.com" Demo.db_alice)
    = Demo.db_alice.
Proof.
  apply (signup_request_invalid_fields Demo.cfg Demo.env0 (Some "") None "c@x.com" Demo.db_alice).
  - reflexivity.
  - right. left. reflexivity.
Defined.


Lemma account_identity_preserved_witness :
  exists u',
    fst (serve Demo.cfg
           [Complete Login Demo.env1 "a@x.com" (JsString "550000");
            Challenge Demo.env1 (LoginChallenge "a@x.com");
            Challenge Demo.env1 Demo.signup_alice]
           Demo.db_alice) !! "a@x.com" = Some u' /\
    identity u' = identity Demo.alice.
Proof.
  apply (account_identity_preserved Demo.cfg
           [Complete Login Demo.env1 "a@x.com" (JsString "550000");
            Challenge Demo.env1 (LoginChallenge "a@x.com");
            Challenge Demo.env1 Demo.signup_alice]
           Demo.db_alice "a@x.com" Demo.alice).
  - exact db_alice_keyed.
  - reflexivity.
Defined.


Lemma non_string_code_rejected_witness :
  response (events (complete Demo.cfg Login Demo.env1 "a@x.com" (JsNumber 550000)
                      Demo.db_alice))
  = Some (400, msg_body "Invalid or expired OTP.") /\
  final_db (complete Demo.cfg Login Demo.env1 "a@x.com" (JsNumber 550000) Demo.db_alice)
  = Demo.db_alice.
Proof.
  apply (non_string_code_rejected Demo.cfg Login Demo.env1 "a@x.com" (JsNumber 550000)
           Demo.db_alice Demo.alice).
  - reflexivity.
  - discriminate.
Defined.

Lemma guard_ignores_later_segments_witness :
  authMiddleware Demo.cfg Demo.env1 (Some "Bearer tok.65f0 and more") Demo.whoami Demo.db_alice
  = authMiddleware Demo.cfg Demo.env1 (Some "Bearer tok.65f0") Demo.whoami Demo.db_alice.
Proof.
  apply (guard_ignores_later_segments Demo.cfg Demo.env1 "Bearer" "tok.65f0" "and more"
           Demo.whoami Demo.db_alice); reflexivity.
Defined.

Lemma guard_invalid_token_witness :
  authMiddleware Demo.cfg Demo.env1 (Some "Bearer forged") Demo.whoami Demo.db_alice
  = (Returned tt, Demo.db_alice,
     [Responded 401 (mkBody None "Token is not valid." None (Some "jwt malformed"))]).
Proof.
  apply (guard_invalid_token Demo.cfg Demo.env1 "Bearer" "forged" "jwt malformed"
           Demo.whoami Demo.db_alice).
  - reflexivity.
  - reflexivity.
  - discriminate.
  - reflexivity.
Defined.

Lemma guard_double_space_witness :
  authMiddleware Demo.cfg Demo.env1 (Some "Bearer  tok.65f0") Demo.whoami Demo.db_alice
  = (Returned tt, Demo.db_alice,
     [Responded 401 (msg_body "No token, authorization denied.")]).
Proof.
  apply (guard_double_space Demo.cfg Demo.env1 "Bearer" "tok.65f0" Demo.whoami Demo.db_alice).
  reflexivity.
Defined.

Lemma session_token_passes_guard_witness :
  response_token (events (complete Demo.cfg Login Demo.env1 "a@x.com" (JsString "550000")
                            Demo.db_alice))
  = Some (jwt_sign (_id Demo.alice) (JWT_SECRET Demo.cfg) (now Demo.env1)) /\
  authMiddleware Demo.cfg Demo.env_late
    (Some (String.append "Bearer"
             (String " " (jwt_sign (_id Demo.alice) (JWT_SECRET Demo.cfg) (now Demo.env1)))))
    Demo.whoami ∅
  = Demo.whoami (Some (mkReqUser (_id Demo.alice))) ∅.
Proof.
  apply (session_token_passes_guard Demo.cfg Login Demo.env1 "a@x.com" (JsString "550000")
           Demo.db_alice Demo.alice Demo.env_late Demo.whoami ∅).
  - reflexivity.
  - reflexivity.
  - reflexivity.
  - discriminate.
  - reflexivity.
Defined.

Lemma mailed_code_is_accepted_witness :
  exists code,
    mail_to (challenge_mail Demo.cfg Demo.env0 Demo.signup_alice)
    = challenge_email Demo.signup_alice /\
    (mail_text (challenge_mail Demo.cfg Demo.env0 Demo.signup_alice)
     = String.append "Your OTP for notes-app sign up is: " code \/
     mail_text (challenge_mail Demo.cfg Demo.env0 Demo.signup_alice)
     = String.append "Your OTP for notes-app login is: " code) /\
    forall k env',
      now env' <= now Demo.env0 + 600000 ->
      status (events (complete Demo.cfg k env' (challenge_email Demo.signup_alice)
                        (JsString code)
                        (final_db (request_challenge Demo.cfg Demo.env0 Demo.signup_alice ∅))))
      = Some 200.
Proof.
  apply (mailed_code_is_accepted Demo.cfg Demo.env0 Demo.signup_alice ∅
           (challenge_mail Demo.cfg Demo.env0 Demo.signup_alice)).
  - exact keyed_by_email_empty.
  - right. left. vm_compute. reflexivity.
Defined.

Lemma unverified_account_can_login_witness :
  status (events (request_otp Demo.cfg Demo.env1 "a@x.com"
                    (final_db (request_signup_otp Demo.cfg Demo.env0 (Some "Alice") None
                                 "a@x.com" ∅)))) = Some 200 /\
  exists u,
    final_db (request_otp Demo.cfg Demo.env1 "a@x.com"
                (final_db (request_signup_otp Demo.cfg Demo.env0 (Some "Alice") None
                             "a@x.com" ∅))) !! "a@x.com" = Some u /\
    name u = "Alice" /\ email u = "a@x.com" /\
    pending_challenge u
    = Some (generate_otp (random Demo.env1), now Demo.env1 + 600000).
Proof.
  apply (unverified_account_can_login Demo.cfg Demo.env0 Demo.env1 "Alice" None "a@x.com" ∅).
  - reflexivity.
  - discriminate.
  - discriminate.
Defined.

Lemma challenge_fields_stay_paired_witness :
  challenge_paired
    (fst (serve Demo.cfg
            [Challenge Demo.env0 Demo.signup_alice;
             Complete Signup Demo.env1 "a@x.com" (JsString "550000")] ∅)).
Proof.
  apply (challenge_fields_stay_paired Demo.cfg
           [Challenge Demo.env0 Demo.signup_alice;
            Complete Signup Demo.env1 "a@x.com" (JsString "550000")] ∅).
  intros e u H. rewrite lookup_empty in H. discriminate.
Defined.

(** *** The protected routes on a small world *)

Lemma demo_notes_db_lookup e u :
  DemoNotes.db !! e = Some u ->
  (e = "a@x.com" /\ u = DemoNotes.alice) \/ (e = "b@x.com" /\ u = DemoNotes.bob).
Proof.
  unfold DemoNotes.db. rewrite lookup_insert_Some, lookup_singleton_Some.
  intros [[<- <-] | [_ [<- <-]]]; [left | right]; split; reflexivity.
Qed.

Lemma demo_notes_unique_ids : unique_ids DemoNotes.db.
Proof.
  intros e1 e2 u1 u2 H1 H2 Hid.
  apply demo_notes_db_lookup in H1 as [[-> ->]|[-> ->]];
    apply demo_notes_db_lookup in H2 as [[-> ->]|[-> ->]];
    try reflexivity; discriminate Hid.
Qed.

Example guard_as_alice :
  guard Demo.cfg DemoNotes.env DemoNotes.as_alice = Pass (Some (mkReqUser DemoNotes.alice_id)).
Proof. reflexivity. Qed.

Example guard_as_alice_upper :
  guard Demo.cfg DemoNotes.env DemoNotes.as_alice_upper
  = Pass (Some (mkReqUser DemoNotes.alice_id_upper)).
Proof. reflexivity. Qed.

(** The two spellings of Alice's id are cast to one [ObjectId]. *)
Example cast_alice_upper :
  DemoNotes.cast_id DemoNotes.alice_id_upper = Some DemoNotes.alice_id /\
  DemoNotes.cast_id DemoNotes.alice_id = Some DemoNotes.alice_id /\
  DemoNotes.cast_id DemoNotes.nid1_upper = Some DemoNotes.nid1 /\
  DemoNotes.cast_id "65f0" = None.
Proof. repeat split; vm_compute; reflexivity. Qed.

Lemma me_returns_identity_witness :
  auth_me Demo.cfg DemoNotes.cast_id DemoNotes.env DemoNotes.as_alice_upper DemoNotes.world
  = (mkReply 200
       (UserDoc (mkUser DemoNotes.alice_id "Alice" "a@x.com" (Some "11 December 1997")
                   None None)),
     DemoNotes.world).
Proof.
  apply (me_returns_identity Demo.cfg DemoNotes.cast_id DemoNotes.env DemoNotes.as_alice_upper
           DemoNotes.world "a@x.com" DemoNotes.alice DemoNotes.alice_id_upper).
  - exact demo_notes_unique_ids.
  - reflexivity.
  - discriminate.
  - vm_compute. reflexivity.
  - reflexivity.
Defined.

Lemma me_unknown_account_witness :
  auth_me Demo.cfg DemoNotes.cast_id DemoNotes.env
    (Some "Bearer tok.FFFFFFFFFFFFffffffffffff") DemoNotes.world
  = (reply_message 404 "User not found.", DemoNotes.world).
Proof.
  apply (me_unknown_account Demo.cfg DemoNotes.cast_id DemoNotes.env
           (Some "Bearer tok.FFFFFFFFFFFFffffffffffff") DemoNotes.world
           "FFFFFFFFFFFFffffffffffff" "ffffffffffffffffffffffff").
  - reflexivity.
  - discriminate.
  - vm_compute. reflexivity.
  - intros e u H. apply demo_notes_db_lookup in H as [[_ ->]|[_ ->]]; discriminate.
Defined.

Lemma anonymous_token_refused_witness :
  auth_me Demo.cfg DemoNotes.cast_id DemoNotes.env (Some "Bearer tok.") DemoNotes.world
  = (reply_message 401 "User ID not found in token.", DemoNotes.world) /\
  notes_create Demo.cfg DemoNotes.cast_id DemoNotes.env (Some "Bearer tok.")
    (Some "Todo") (Some "prove it") DemoNotes.world
  = (reply_message 401 "User ID not found in token.", DemoNotes.world) /\
  notes_all Demo.cfg DemoNotes.cast_id DemoNotes.env (Some "Bearer tok.") DemoNotes.world
  = (reply_message 401 "User ID not found in token.", DemoNotes.world) /\
  notes_delete Demo.cfg DemoNotes.cast_id DemoNotes.env (Some "Bearer tok.") DemoNotes.nid1
    DemoNotes.world
  = (reply_message 401 "User ID not found in token.", DemoNotes.world).
Proof.
  apply (anonymous_token_refused Demo.cfg DemoNotes.cast_id DemoNotes.env
           (Some "Bearer tok.") (Some (mkReqUser "")) DemoNotes.world
           (Some "Todo") (Some "prove it") DemoNotes.nid1).
  - reflexivity.
  - reflexivity.
Defined.

Lemma notes_all_own_sorted_witness :
  exists l,
    notes_all Demo.cfg DemoNotes.cast_id DemoNotes.env DemoNotes.as_alice_upper DemoNotes.world
    = (mkReply 200 (NoteList l), DemoNotes.world) /\
    (forall nid n,
        (nid, n) ∈ l <-> notes DemoNotes.world !! nid = Some n /\ user n = DemoNotes.alice_id) /\
    StronglySorted newer_first l /\
    NoDup l.
Proof.
  apply (notes_all_own_sorted Demo.cfg DemoNotes.cast_id DemoNotes.env DemoNotes.as_alice_upper
           DemoNotes.world DemoNotes.alice_id_upper DemoNotes.alice_id).
  - reflexivity.
  - discriminate.
  - vm_compute. reflexivity.
Defined.

(** Alice's list: her two notes, the newer one first; Bob's note is not
    in it.  The spelling of the id in the token makes no difference. *)
Example notes_all_alice :
  fst (notes_all Demo.cfg DemoNotes.cast_id DemoNotes.env DemoNotes.as_alice DemoNotes.world)
  = mkReply 200 (NoteList [(DemoNotes.nid2, DemoNotes.n2); (DemoNotes.nid1, DemoNotes.n1)]) /\
  notes_all Demo.cfg DemoNotes.cast_id DemoNotes.env DemoNotes.as_alice_upper DemoNotes.world
  = notes_all Demo.cfg DemoNotes.cast_id DemoNotes.env DemoNotes.as_alice DemoNotes.world.
Proof. split; vm_compute; reflexivity. Qed.

Lemma note_create_then_listed_witness :
  let note := mkNote "Todo" "prove it" DemoNotes.alice_id (now DemoNotes.env) in
  fst (notes_create Demo.cfg DemoNotes.cast_id DemoNotes.env DemoNotes.as_alice_upper
         (Some "Todo") (Some "prove it") DemoNotes.world)
  = mkReply 201 (NoteDoc (new_id DemoNotes.env) note) /\
  users (snd (notes_create Demo.cfg DemoNotes.cast_id DemoNotes.env DemoNotes.as_alice_upper
                (Some "Todo") (Some "prove it") DemoNotes.world))
  = users DemoNotes.world /\
  forall uid' owner',
    uid' <> "" -> DemoNotes.cast_id uid' = Some owner' ->
    exists l,
      fst (all_handler DemoNotes.cast_id (Some (mkReqUser uid'))
             (snd (notes_create Demo.cfg DemoNotes.cast_id DemoNotes.env
                     DemoNotes.as_alice_upper (Some "Todo") (Some "prove it")
                     DemoNotes.world)))
      = mkReply 200 (NoteList l) /\
      ((new_id DemoNotes.env, note) ∈ l <-> owner' = DemoNotes.alice_id).
Proof.
  apply (note_create_then_listed Demo.cfg DemoNotes.cast_id DemoNotes.env
           DemoNotes.as_alice_upper DemoNotes.world DemoNotes.alice_id_upper
           DemoNotes.alice_id "Todo" "prove it").
  - reflexivity.
  - discriminate.
  - vm_compute. reflexivity.
  - discriminate.
  - discriminate.
  - reflexivity.
Defined.

Lemma note_create_invalid_witness :
  exists msg,
    notes_create Demo.cfg DemoNotes.cast_id DemoNotes.env DemoNotes.as_alice
      (Some "Todo") (Some "") DemoNotes.world
    = (reply_server_error msg, DemoNotes.world).
Proof.
  apply (note_create_invalid Demo.cfg DemoNotes.cast_id DemoNotes.env DemoNotes.as_alice
           DemoNotes.world DemoNotes.alice_id (Some "Todo") (Some "")).
  - reflexivity.
  - discriminate.
  - right. right. right. reflexivity.
Defined.

Lemma note_delete_refused_witness :
  notes_delete Demo.cfg DemoNotes.cast_id DemoNotes.env DemoNotes.as_alice_upper DemoNotes.nid3
    DemoNotes.world
  = (reply_message 404 "Note not found or you are not the owner.", DemoNotes.world).
Proof.
  apply (note_delete_refused Demo.cfg DemoNotes.cast_id DemoNotes.env DemoNotes.as_alice_upper
           DemoNotes.world DemoNotes.alice_id_upper DemoNotes.alice_id
           DemoNotes.nid3 DemoNotes.nid3).
  - reflexivity.
  - discriminate.
  - vm_compute. reflexivity.
  - vm_compute. reflexivity.
  - right. exists DemoNotes.n3. split; [reflexivity | discriminate].
Defined.

Lemma note_delete_own_witness :
  fst (notes_delete Demo.cfg DemoNotes.cast_id DemoNotes.env DemoNotes.as_alice_upper
         DemoNotes.nid1_upper DemoNotes.world)
  = reply_message 200 "Note deleted successfully." /\
  notes (snd (notes_delete Demo.cfg DemoNotes.cast_id DemoNotes.env DemoNotes.as_alice_upper
                DemoNotes.nid1_upper DemoNotes.world)) !! DemoNotes.nid1 = None /\
  (forall key', key' <> DemoNotes.nid1 ->
     notes (snd (notes_delete Demo.cfg DemoNotes.cast_id DemoNotes.env DemoNotes.as_alice_upper
                   DemoNotes.nid1_upper DemoNotes.world)) !! key'
     = notes DemoNotes.world !! key') /\
  users (snd (notes_delete Demo.cfg DemoNotes.cast_id DemoNotes.env DemoNotes.as_alice_upper
                DemoNotes.nid1_upper DemoNotes.world))
  = users DemoNotes.world.
Proof.
  apply (note_delete_own Demo.cfg DemoNotes.cast_id DemoNotes.env DemoNotes.as_alice_upper
           DemoNotes.world DemoNotes.alice_id_upper DemoNotes.alice_id
           DemoNotes.nid1_upper DemoNotes.nid1 DemoNotes.n1).
  - reflexivity.
  - discriminate.
  - vm_compute. reflexivity.
  - vm_compute. reflexivity.
  - reflexivity.
  - reflexivity.
Defined.

(** The note is deleted under either spelling of its id and of the
    caller's id; under Bob's token it is refused. *)
Example delete_spelling_makes_no_difference :
  notes_delete Demo.cfg DemoNotes.cast_id DemoNotes.env DemoNotes.as_alice_upper
    DemoNotes.nid1_upper DemoNotes.world
  = notes_delete Demo.cfg DemoNotes.cast_id DemoNotes.env DemoNotes.as_alice
      DemoNotes.nid1 DemoNotes.world /\
  fst (notes_delete Demo.cfg DemoNotes.cast_id DemoNotes.env DemoNotes.as_bob
         DemoNotes.nid1_upper DemoNotes.world)
  = reply_message 404 "Note not found or you are not the owner.".
Proof. split; vm_compute; reflexivity. Qed.

Lemma note_create_delete_round_trip_witness :
  snd (notes_delete Demo.cfg DemoNotes.cast_id DemoNotes.env DemoNotes.as_alice_upper
         (new_id DemoNotes.env)
         (snd (notes_create Demo.cfg DemoNotes.cast_id DemoNotes.env DemoNotes.as_alice
                 (Some "Todo") (Some "prove it") DemoNotes.world)))
  = DemoNotes.world.
Proof.
  apply (note_create_delete_round_trip Demo.cfg DemoNotes.cast_id DemoNotes.env DemoNotes.env
           DemoNotes.as_alice DemoNotes.as_alice_upper DemoNotes.world
           DemoNotes.alice_id DemoNotes.alice_id_upper DemoNotes.alice_id
           (new_id DemoNotes.env) "Todo" "prove it").
  - reflexivity.
  - reflexivity.
  - discriminate.
  - vm_compute. reflexivity.
  - discriminate.
  - vm_compute. reflexivity.
  - vm_compute. reflexivity.
  - discriminate.
  - discriminate.
  - reflexivity.
Defined.

Lemma other_users_notes_untouched_witness :
  notes_of DemoNotes.alice_id
    (notes (serve_notes DemoNotes.cast_id
              [(Some (mkReqUser DemoNotes.bob_id), DeleteNote DemoNotes.nid1_upper);
               (Some (mkReqUser DemoNotes.bob_id),
                CreateNote DemoNotes.env (Some "Mine") (Some "now"));
               (Some (mkReqUser "65f0"), DeleteNote DemoNotes.nid1);
               (None, DeleteNote DemoNotes.nid2)]
              DemoNotes.world))
  = notes_of DemoNotes.alice_id (notes DemoNotes.world).
Proof.
  apply (other_users_notes_untouched DemoNotes.cast_id DemoNotes.alice_id
           [(Some (mkReqUser DemoNotes.bob_id), DeleteNote DemoNotes.nid1_upper);
            (Some (mkReqUser DemoNotes.bob_id),
             CreateNote DemoNotes.env (Some "Mine") (Some "now"));
            (Some (mkReqUser "65f0"), DeleteNote DemoNotes.nid1);
            (None, DeleteNote DemoNotes.nid2)]
           DemoNotes.world).
  repeat apply Forall_cons_2; try apply Forall_nil_2; vm_compute; discriminate.
Defined.
